(** * Seed-Oss: configuration resolution and forward-call wiring

    A shallow embedding of
    [easydel/modules/seed_oss/seed_oss_configuration.py] and of the
    control flow of [easydel/modules/seed_oss/modeling_seed_oss.py].

    Python integers are [Z], Python floats are IEEE doubles ([float]),
    [None]-able values are [option]s, dictionaries are [gmap]s keyed by
    strings, exceptions are values of [exn] carried by the [result] type.
    Tensor arithmetic (attention, normalisation, projections) belongs to
    the array engine and enters the model as section variables; shapes,
    index arithmetic, argument validation and cache threading are
    modelled as written. *)

From stdpp Require Import gmap strings list fin_maps pretty.
From Stdlib Require Import ZArith Lia Floats.

Set Warnings "-inexact-float".
Local Open Scope Z_scope.

(** ** Python values, exceptions and results *)

Module Py.

(** The dynamically typed values that travel through [**kwargs] and
    through the [rope_parameters] dictionary. *)
#[warnings="-register-all"] Inductive pyval :=
| PyNone
| PyBool (b : bool)
| PyInt (z : Z)
| PyFloat (f : float)
| PyStr (s : string)
| PyDict (d : gmap string pyval).

(** [v is not None] *)
Definition is_not_none (v : pyval) : bool :=
  match v with PyNone => false | _ => true end.

(** [d.get(k)], which answers [None] for a missing key. *)
Definition dict_get (d : gmap string pyval) (k : string) : pyval :=
  default PyNone (d !! k).

(** [kwargs.pop(k, None)]: the value and the remaining dictionary. *)
Definition dict_pop (d : gmap string pyval) (k : string)
  : pyval * gmap string pyval :=
  (default PyNone (d !! k), delete k d).

Inductive exn :=
| ValueError (msg : string)
| AssertionError (msg : string)
| ZeroDivisionError (msg : string)
| IndexError (msg : string)
| AttributeError (msg : string)
| InvalidReference.  (* a cache handle that names no object; no Python program builds one *)

Inductive result (A : Type) :=
| Ok (a : A)
| Raise (e : exn).
Arguments Ok {A} a.
Arguments Raise {A} e.

Definition bind {A B} (r : result A) (k : A -> result B) : result B :=
  match r with
  | Ok a => k a
  | Raise e => Raise e
  end.

(** The value of a call that returned, and whether it returned. *)
Definition returned {A} (r : result A) : option A :=
  match r with
  | Ok a => Some a
  | Raise _ => None
  end.

Definition is_ok {A} (r : result A) : bool :=
  match r with
  | Ok _ => true
  | Raise _ => false
  end.

(** [a // b] on Python integers: floor division, an error at zero. *)
Definition floordiv (a b : Z) : result Z :=
  if b =? 0 then Raise (ZeroDivisionError "integer division or modulo by zero")
  else Ok (a / b).

(** An argument of a call: [None] when the caller leaves it out, and the
    declared default then applies. *)
Definition arg {A} (passed : option A) (dflt : A) : A := default dflt passed.

End Py.
Import Py.

Notation "x <- e ;; k" := (Py.bind e (fun x => k))
  (at level 100, e at next level, right associativity, only parsing).

(** ** seed_oss_configuration.py *)

(** [_extract_rope_scaling]: every field of the payload but the theta key;
    an empty remainder is reported as [None]. *)
Definition _extract_rope_scaling (rope_parameters : option (gmap string pyval))
  : option (gmap string pyval) :=
  match rope_parameters with
  | None => None
  | Some params =>
      let scaling := filter (fun kv => kv.1 ≠ "rope_theta"%string) params in
      if decide (scaling = ∅) then None else Some scaling
  end.

(** [EasyDeLGradientCheckPointers] lives outside these two files; only its
    member [NONE] is named here. *)
Inductive EasyDeLGradientCheckPointers :=
| GC_NONE
| GC_member (name : string).

(** The keyword arguments of [SeedOssConfig(...)]. Every field is an
    [option] whose [None] means that the caller did not pass the argument;
    a parameter annotated [T | None] therefore has type
    [option (option T)], and [Some None] is an explicit [None].
    [kwargs] holds the keywords that name no parameter. Python binds a
    keyword that names a parameter to that parameter, so a call never
    leaves ["rope_theta"] or ["rope_scaling"] in [kwargs]; the body is
    modelled for every dictionary all the same. *)
Module Args.
Record t := mk {
  vocab_size : option Z;
  hidden_size : option Z;
  intermediate_size : option Z;
  num_hidden_layers : option Z;
  num_attention_heads : option Z;
  num_key_value_heads : option (option Z);
  hidden_act : option string;
  max_position_embeddings : option Z;
  initializer_range : option float;
  rms_norm_eps : option float;
  use_cache : option bool;
  pad_token_id : option (option Z);
  bos_token_id : option Z;
  eos_token_id : option Z;
  pretraining_tp : option Z;
  tie_word_embeddings : option bool;
  rope_parameters : option (option (gmap string pyval));
  rope_scaling : option pyval;
  rope_theta : option pyval;
  attention_bias : option bool;
  attention_out_bias : option bool;
  attention_dropout : option float;
  residual_dropout : option float;
  mlp_bias : option bool;
  head_dim : option (option Z);
  gradient_checkpointing : option EasyDeLGradientCheckPointers;
  use_scan_mlp : option bool;
  scan_mlp_chunk_size : option Z;
  bits : option (option Z);
  layer_types : option (option (list string));
  kwargs : gmap string pyval
}.

(** [SeedOssConfig()] *)
Definition none : t :=
  mk None None None None None None None None None None None None None None
     None None None None None None None None None None None None None None
     None None ∅.
End Args.

Module SeedOssConfig.

Record t := mk {
  vocab_size : Z;
  hidden_size : Z;
  intermediate_size : Z;
  num_hidden_layers : Z;
  num_attention_heads : Z;
  num_key_value_heads : Z;
  hidden_act : string;
  max_position_embeddings : Z;
  initializer_range : float;
  rms_norm_eps : float;
  use_cache : bool;
  pretraining_tp : Z;
  tie_word_embeddings : bool;
  attention_bias : bool;
  attention_out_bias : bool;
  attention_dropout : float;
  resid_pdrop : float;
  mlp_bias : bool;
  gradient_checkpointing : EasyDeLGradientCheckPointers;
  use_scan_mlp : bool;
  scan_mlp_chunk_size : Z;
  bits : option Z;
  layer_types : list string;
  head_dim : Z;
  rope_parameters : option (gmap string pyval);
  rope_theta : pyval;
  rope_scaling : pyval;
  (* set by the base class from the arguments forwarded to it *)
  pad_token_id : option Z;
  bos_token_id : Z;
  eos_token_id : Z
}.

(** [x or y] on a list-or-[None]: [None] and the empty list are falsy. *)
Definition list_or {A} (x : option (list A)) (y : list A) : list A :=
  match x with
  | Some (a :: l) => a :: l
  | Some [] | None => y
  end.

(** [SeedOssConfig.__init__], from the binding of the arguments to the
    last field it sets (lines 77-161). The constructor ends with the call of
    the base class's initialiser (lines 163-172): [construct] below adds it. *)
Definition __init__ (a : Args.t) : result t :=
  let vocab_size := arg (Args.vocab_size a) 155136 in
  let hidden_size := arg (Args.hidden_size a) 4096 in
  let intermediate_size := arg (Args.intermediate_size a) 27648 in
  let num_hidden_layers := arg (Args.num_hidden_layers a) 64 in
  let num_attention_heads := arg (Args.num_attention_heads a) 80 in
  let num_key_value_heads := arg (Args.num_key_value_heads a) (Some 8) in
  let hidden_act := arg (Args.hidden_act a) "silu"%string in
  let max_position_embeddings := arg (Args.max_position_embeddings a) 524288 in
  let initializer_range := arg (Args.initializer_range a) 0.02%float in
  let rms_norm_eps := arg (Args.rms_norm_eps a) 1e-6%float in
  let use_cache := arg (Args.use_cache a) true in
  let pad_token_id := arg (Args.pad_token_id a) (Some 1) in
  let bos_token_id := arg (Args.bos_token_id a) 0 in
  let eos_token_id := arg (Args.eos_token_id a) 2 in
  let pretraining_tp := arg (Args.pretraining_tp a) 1 in
  let tie_word_embeddings := arg (Args.tie_word_embeddings a) false in
  let rope_parameters := arg (Args.rope_parameters a) None in
  let rope_scaling := arg (Args.rope_scaling a) PyNone in
  let rope_theta := arg (Args.rope_theta a) PyNone in
  let attention_bias := arg (Args.attention_bias a) true in
  let attention_out_bias := arg (Args.attention_out_bias a) false in
  let attention_dropout := arg (Args.attention_dropout a) 0.1%float in
  let residual_dropout := arg (Args.residual_dropout a) 0.1%float in
  let mlp_bias := arg (Args.mlp_bias a) false in
  let head_dim := arg (Args.head_dim a) (Some 128) in
  let gradient_checkpointing := arg (Args.gradient_checkpointing a) GC_NONE in
  let use_scan_mlp := arg (Args.use_scan_mlp a) false in
  let scan_mlp_chunk_size := arg (Args.scan_mlp_chunk_size a) 1024 in
  let bits := arg (Args.bits a) None in
  let layer_types := arg (Args.layer_types a) None in
  let kwargs := Args.kwargs a in
  (* body *)
  let '(rope_scaling_kwarg, kwargs) := dict_pop kwargs "rope_scaling" in
  let '(rope_theta_kwarg, kwargs) := dict_pop kwargs "rope_theta" in
  let num_key_value_heads :=
    match num_key_value_heads with
    | None => num_attention_heads
    | Some n => n
    end in
  let layer_types :=
    list_or layer_types (replicate (Z.to_nat num_hidden_layers) "full_attention"%string) in
  head_dim <- match head_dim with
              | Some h => Ok h
              | None => floordiv hidden_size num_attention_heads
              end ;;
  let rope_theta_value :=
    if is_not_none rope_theta then rope_theta else rope_theta_kwarg in
  let rope_theta_value :=
    match rope_parameters with
    | Some params =>
        if is_not_none (dict_get params "rope_theta")
        then dict_get params "rope_theta"
        else rope_theta_value
    | None => rope_theta_value
    end in
  let rope_theta_value :=
    if is_not_none rope_theta_value then rope_theta_value
    else PyFloat 10000.0%float in
  let rope_scaling_value :=
    if is_not_none rope_scaling then rope_scaling else rope_scaling_kwarg in
  let rope_scaling_from_params := _extract_rope_scaling rope_parameters in
  let rope_scaling_value :=
    match rope_scaling_from_params with
    | Some d => PyDict d
    | None => rope_scaling_value
    end in
  Ok {| vocab_size := vocab_size;
        hidden_size := hidden_size;
        intermediate_size := intermediate_size;
        num_hidden_layers := num_hidden_layers;
        num_attention_heads := num_attention_heads;
        num_key_value_heads := num_key_value_heads;
        hidden_act := hidden_act;
        max_position_embeddings := max_position_embeddings;
        initializer_range := initializer_range;
        rms_norm_eps := rms_norm_eps;
        use_cache := use_cache;
        pretraining_tp := pretraining_tp;
        tie_word_embeddings := tie_word_embeddings;
        attention_bias := attention_bias;
        attention_out_bias := attention_out_bias;
        attention_dropout := attention_dropout;
        resid_pdrop := residual_dropout;
        mlp_bias := mlp_bias;
        gradient_checkpointing := gradient_checkpointing;
        use_scan_mlp := use_scan_mlp;
        scan_mlp_chunk_size := scan_mlp_chunk_size;
        bits := bits;
        layer_types := layer_types;
        head_dim := head_dim;
        rope_parameters := rope_parameters;
        rope_theta := rope_theta_value;
        rope_scaling := rope_scaling_value;
        pad_token_id := pad_token_id;
        bos_token_id := bos_token_id;
        eos_token_id := eos_token_id |}.

End SeedOssConfig.

(** The keyword arguments of [super().__init__(...)] (lines 163-172): seven
    resolved arguments and [**kwargs], the keywords that named no parameter
    less the two that lines 111-112 popped. *)
Module BaseArgs.
Record t := mk {
  pad_token_id : option Z;
  bos_token_id : Z;
  eos_token_id : Z;
  tie_word_embeddings : bool;
  use_scan_mlp : bool;
  scan_mlp_chunk_size : Z;
  bits : option Z;
  kwargs : gmap string pyval
}.
End BaseArgs.

Definition forwarded (a : Args.t) : BaseArgs.t :=
  let '(_, kwargs) := dict_pop (Args.kwargs a) "rope_scaling" in
  let '(_, kwargs) := dict_pop kwargs "rope_theta" in
  {| BaseArgs.pad_token_id := arg (Args.pad_token_id a) (Some 1);
     BaseArgs.bos_token_id := arg (Args.bos_token_id a) 0;
     BaseArgs.eos_token_id := arg (Args.eos_token_id a) 2;
     BaseArgs.tie_word_embeddings := arg (Args.tie_word_embeddings a) false;
     BaseArgs.use_scan_mlp := arg (Args.use_scan_mlp a) false;
     BaseArgs.scan_mlp_chunk_size := arg (Args.scan_mlp_chunk_size a) 1024;
     BaseArgs.bits := arg (Args.bits a) None;
     BaseArgs.kwargs := kwargs |}.

(** [SeedOssConfig(...)], the whole constructor: the fields are resolved
    and set, then the base class's initialiser runs on what is forwarded to
    it. That initialiser lives outside these two files and validates the
    keywords it is handed, so it is a parameter here, free to raise. *)
Definition construct (base_init : BaseArgs.t -> result unit) (a : Args.t)
  : result SeedOssConfig.t :=
  cfg <- SeedOssConfig.__init__ a ;;
  _ <- base_init (forwarded a) ;;
  Ok cfg.


(** ** Arrays of the numerical engine *)

(** A rank-2 array: its shape and its entries. A rank-3 tensor of hidden
    vectors is a rank-2 array whose entries are the vectors. *)
Record Array2 (A : Type) := mkArray2 {
  shape0 : nat;
  shape1 : nat;
  get2 : nat -> nat -> A
}.
Arguments mkArray2 {A} _ _ _.
Arguments shape0 {A} _.
Arguments shape1 {A} _.
Arguments get2 {A} _ _ _.

Definition row {A} (a : Array2 A) (i : nat) : list A :=
  map (get2 a i) (seq 0 (shape1 a)).

Definition rows {A} (a : Array2 A) : list (list A) :=
  map (row a) (seq 0 (shape0 a)).

(** The array whose rows are the given lists (all of the length of the first). *)
Definition of_rows {A} (d : A) (l : list (list A)) : Array2 A :=
  mkArray2 (length l) (length (hd [] l)) (fun i j => nth j (nth i l []) d).

Definition map2 {A B} (f : A -> B) (a : Array2 A) : Array2 B :=
  mkArray2 (shape0 a) (shape1 a) (fun i j => f (get2 a i j)).

(** An operation along the last axis that keeps the length of each row. *)
Definition along_last (f : list Z -> list Z) (a : Array2 Z) : Array2 Z :=
  mkArray2 (shape0 a) (shape1 a) (fun i j => nth j (f (row a i)) 0).

Definition ones (b l : nat) : Array2 Z := mkArray2 b l (fun _ _ => 1).

(** [x.astype(int32)]: two's-complement wrap-around. *)
Definition astype_i32 (z : Z) : Z := (z + 2 ^ 31) mod 2 ^ 32 - 2 ^ 31.

Fixpoint cumsum_from (acc : Z) (l : list Z) : list Z :=
  match l with
  | [] => []
  | x :: l' => (acc + x) :: cumsum_from (acc + x) l'
  end.

(** [jnp.cumsum] of one row. *)
Definition cumsum (l : list Z) : list Z := cumsum_from 0 l.

(** [jnp.clip(x, min=m)] *)
Definition clip_min (m x : Z) : Z := Z.max m x.

Definition broadcastable (have want : nat) : bool :=
  (have =? want)%nat || (have =? 1)%nat.

(** [jnp.broadcast_to(x, (b, l))] for a rank-2 [x]. *)
Definition broadcast_to {A} (x : Array2 A) (b l : nat) : result (Array2 A) :=
  if broadcastable (shape0 x) b && broadcastable (shape1 x) l
  then Ok (mkArray2 b l (fun i j =>
             get2 x (if (shape0 x =? b)%nat then i else 0%nat)
                    (if (shape1 x =? l)%nat then j else 0%nat)))
  else Raise (ValueError "Incompatible shapes for broadcasting").

Fixpoint argmax_from (best_i : nat) (best : Z) (i : nat) (l : list Z) : nat :=
  match l with
  | [] => best_i
  | x :: l' =>
      if best <? x then argmax_from i x (S i) l'
      else argmax_from best_i best (S i) l'
  end.

(** [jnp.argmax] of one non-empty row: the first position of the maximum. *)
Definition argmax (l : list Z) : nat :=
  match l with
  | [] => 0%nat
  | x :: l' => argmax_from 0 x 1 l'
  end.

(** [jnp.argmax(a, -1)]; an empty reduction axis is an error. *)
Definition argmax_last (a : Array2 Z) : result (list Z) :=
  if (shape1 a =? 0)%nat
  then Raise (ValueError "attempt to get argmax of an empty sequence")
  else Ok (map (fun r => Z.of_nat (argmax r)) (rows a)).

(** An index as it reaches [logits[jnp.arange(batch_size), idx]]: a Python
    scalar, or one entry per sequence. *)
Inductive index :=
| Scalar (z : Z)
| PerSequence (zs : list Z).

Definition index_at (ix : index) (i : nat) : Z :=
  match ix with
  | Scalar z => z
  | PerSequence zs => nth i zs 0
  end.

(** The position an index selects on an axis of size [n]: negative
    indices count from the end, and the engine clamps what is out of range. *)
Definition normalize_index (n : nat) (z : Z) : nat :=
  let z := if z <? 0 then z + Z.of_nat n else z in
  Z.to_nat (Z.max 0 (Z.min z (Z.of_nat n - 1))).

(** [a[jnp.arange(b), ix]] *)
Definition take_per_row {A} (a : Array2 A) (b : nat) (ix : index) : list A :=
  map (fun i => get2 a i (normalize_index (shape1 a) (index_at ix i))) (seq 0 b).

(** ** Runtime modes, mask metadata, caches *)

Inductive RUNTIME_MODE_TYPES :=
| MODE_TRAIN
| MODE_DECODE
| MODE_PREFILL
| MODE_INSERT.

(** Python truthiness of a [bool | None] flag. *)
Definition truthy (b : option bool) : bool := default false b.

Record MaskInfo := mkMaskInfo {
  q_segment_ids : Array2 Z
}.

Definition zeros (b l : nat) : Array2 Z := mkArray2 b l (fun _ _ => 0).

(** [MaskInfo.dynamic_init] of [ejkernel.types], the mask library the
    model imports. It hands back the mask info it is passed; without one
    it reads the segments off the attention mask, and without a mask takes
    every token of the input for valid. The library's query segment ids
    number the segments from 0 and mark a masked token with -1: a valid
    token of an unpacked sequence has segment id 0. *)
Definition dynamic_init {Hidden : Type}
    (mask_info : option MaskInfo)
    (input_ids : option (Array2 Z))
    (inputs_embeds : option (Array2 Hidden))
    (attention_mask : option (Array2 bool)) : MaskInfo :=
  match mask_info with
  | Some m => m
  | None =>
      match attention_mask with
      | Some am => mkMaskInfo (map2 (fun v : bool => if v then 0 else -1) am)
      | None =>
          match input_ids with
          | Some ids => mkMaskInfo (zeros (shape0 ids) (shape1 ids))
          | None =>
              match inputs_embeds with
              | Some e => mkMaskInfo (zeros (shape0 e) (shape1 e))
              | None => mkMaskInfo (zeros 0 0)
              end
          end
      end
  end.

(** ** Output records *)

Module AttentionLayerOutput.
Record t (HS AW View : Type) := mk {
  attention_output : HS;
  attention_weight : AW;
  cache_view : option View
}.
Arguments mk {HS AW View} _ _ _.
Arguments attention_output {HS AW View} _.
Arguments attention_weight {HS AW View} _.
Arguments cache_view {HS AW View} _.
End AttentionLayerOutput.

Module DecoderLayerOutput.
Record t (HS AW View : Type) := mk {
  hidden_states : HS;
  attention_weight : AW;
  cache_view : option View
}.
Arguments mk {HS AW View} _ _ _.
Arguments hidden_states {HS AW View} _.
Arguments attention_weight {HS AW View} _.
Arguments cache_view {HS AW View} _.
End DecoderLayerOutput.

(** A cache object is named by a handle into the store of live objects:
    the caller and the model hold the same handle, so an update made by
    the model is seen by the caller. *)
Definition handle := nat.

Module BaseModelOutput.
Record t (HS AW : Type) := mk {
  last_hidden_state : HS;
  hidden_states : option (list HS);
  attentions : option (list AW);
  past_key_values : option handle
}.
Arguments mk {HS AW} _ _ _ _.
Arguments last_hidden_state {HS AW} _.
Arguments hidden_states {HS AW} _.
Arguments attentions {HS AW} _.
Arguments past_key_values {HS AW} _.
End BaseModelOutput.

Module CausalLMOutput.
Record t (HS AW LMLogits : Type) := mk {
  logits : option LMLogits;
  last_hidden_state : HS;
  hidden_states : option (list HS);
  past_key_values : option handle;
  attentions : option (list AW)
}.
Arguments mk {HS AW LMLogits} _ _ _ _ _.
Arguments logits {HS AW LMLogits} _.
Arguments last_hidden_state {HS AW LMLogits} _.
Arguments hidden_states {HS AW LMLogits} _.
Arguments past_key_values {HS AW LMLogits} _.
Arguments attentions {HS AW LMLogits} _.
End CausalLMOutput.

Module SequenceClassifierOutput.
Record t (HS AW Logit : Type) := mk {
  logits : list Logit;
  hidden_states : option (list HS);
  attentions : option (list AW);
  past_key_values : option handle
}.
Arguments mk {HS AW Logit} _ _ _ _.
Arguments logits {HS AW Logit} _.
Arguments hidden_states {HS AW Logit} _.
Arguments attentions {HS AW Logit} _.
Arguments past_key_values {HS AW Logit} _.
End SequenceClassifierOutput.

(** Modelled from the spec: [TransformerCache] belongs to the caching
    layer and is not among the source files. The spec has it hold one
    cache view per layer, created empty when absent from the call and
    updated per layer during the forward pass. *)
Record TransformerCache (View : Type) := mkCache {
  views : list (option View)
}.
Arguments mkCache {View} _.
Arguments views {View} _.

(** [TransformerCache.init_empty(n)]: [n] views, none of them filled. *)
Definition init_empty {View} (n : nat) : TransformerCache View :=
  mkCache (replicate n None).

(** A cache none of whose views holds anything. *)
Definition is_empty_cache {View} (c : TransformerCache View) : bool :=
  forallb (fun v : option View => match v with None => true | Some _ => false end)
          (views c).

(** The arguments of a forward call, shared by the base model and the heads. *)
Module Call.
Record t (Hidden Metadata : Type) := mk {
  input_ids : option (Array2 Z);
  inputs_embeds : option (Array2 Hidden);
  attention_mask : option (Array2 bool);
  mask_info : option MaskInfo;
  position_ids : option (Array2 Z);
  mode : option RUNTIME_MODE_TYPES;
  past_key_values : option handle;
  cache_metadata : option Metadata;
  output_attentions : option bool;
  output_hidden_states : option bool
}.
Arguments mk {Hidden Metadata} _ _ _ _ _ _ _ _ _ _.
Arguments input_ids {Hidden Metadata} _.
Arguments inputs_embeds {Hidden Metadata} _.
Arguments attention_mask {Hidden Metadata} _.
Arguments mask_info {Hidden Metadata} _.
Arguments position_ids {Hidden Metadata} _.
Arguments mode {Hidden Metadata} _.
Arguments past_key_values {Hidden Metadata} _.
Arguments cache_metadata {Hidden Metadata} _.
Arguments output_attentions {Hidden Metadata} _.
Arguments output_hidden_states {Hidden Metadata} _.
End Call.

Definition both_or_neither_msg : string :=
  "You cannot specify both input_ids and inputs_embeds at the same time, and must specify either one.".

Definition max_position_msg (expected got : Z) : string :=
  "Maximum Position Embedding Reached ! " +:+
  "(Expected <= " +:+ pretty expected +:+ " got " +:+ pretty got +:+ ")".

Definition no_pad_batch_msg : string :=
  "Cannot handle batch sizes > 1 if no padding token is defined.".

(** ** modeling_seed_oss.py *)

Section Model.

Context {Hidden Logit LMLogits AttnWeight View Metadata : Type}.

Abbreviation HS := (Array2 Hidden).
Abbreviation Store := (gmap handle (TransformerCache View)).
Abbreviation ForwardCall := (Call.t Hidden Metadata).

Variable config : SeedOssConfig.t.

(** What the array engine computes: the embedding of one token, the
    unified attention of layer [i] (with its rotary frequencies), the
    normalisations, the gated feed-forward block, its chunked driver,
    tensor addition and the scoring projection of one position.
    Sharding hints and checkpoint names leave values unchanged and are
    not written. *)
Variable embed_tokens : Z -> Hidden.
Variable self_attn :
  nat -> HS -> MaskInfo -> Array2 Z -> RUNTIME_MODE_TYPES ->
  option View -> option Metadata -> option bool ->
  AttentionLayerOutput.t HS AttnWeight View.
Variable input_layernorm : nat -> HS -> HS.
Variable post_attention_layernorm : nat -> HS -> HS.
Variable mlp : nat -> HS -> HS.
Variable block_wise_ffn : (HS -> HS) -> HS -> Z -> HS.
Variable tensor_add : HS -> HS -> HS.
Variable norm : HS -> HS.
Variable score : Hidden -> Logit.
Variable lm_head : HS -> LMLogits.

(** [SeedOssDecoderLayer.__call__] of the layer built with [layer_idx]. *)
Definition SeedOssDecoderLayer_call (layer_idx : nat)
    (hidden_states : HS) (mask_info : MaskInfo) (position_ids : Array2 Z)
    (mode : RUNTIME_MODE_TYPES) (cache_view : option View)
    (cache_metadata : option Metadata) (output_attentions : option bool)
  : DecoderLayerOutput.t HS AttnWeight View :=
  let residual := hidden_states in
  let attn_outputs :=
    self_attn layer_idx (input_layernorm layer_idx hidden_states)
              mask_info position_ids mode cache_view cache_metadata
              output_attentions in
  let hidden_states :=
    tensor_add (AttentionLayerOutput.attention_output attn_outputs) residual in
  let residual := hidden_states in
  let ffn_input := post_attention_layernorm layer_idx hidden_states in
  let ffn_output :=
    if SeedOssConfig.use_scan_mlp config
    then block_wise_ffn (mlp layer_idx) ffn_input
                        (SeedOssConfig.scan_mlp_chunk_size config)
    else mlp layer_idx ffn_input in
  let hidden_states := tensor_add hidden_states ffn_output in
  DecoderLayerOutput.mk hidden_states
    (AttentionLayerOutput.attention_weight attn_outputs)
    (AttentionLayerOutput.cache_view attn_outputs).

(** [self.layers]: one layer per index in [range(config.num_hidden_layers)]. *)
Definition layers : list nat :=
  seq 0 (Z.to_nat (SeedOssConfig.num_hidden_layers config)).

(** The values [SeedOssModel.__call__] has fixed when it reaches the
    cache: embeddings, shape, mask metadata, position ids and mode. *)
Record Prepared := mkPrepared {
  inputs_embeds : HS;
  batch_size : nat;
  sequence_length : nat;
  mask_info : MaskInfo;
  position_ids : Array2 Z;
  mode : RUNTIME_MODE_TYPES
}.

(** [(input_ids is None) ^ (inputs_embeds is not None)] *)
Definition both_or_neither (c : ForwardCall) : bool :=
  xorb (bool_decide (Call.input_ids c = None))
       (bool_decide (Call.inputs_embeds c <> None)).

(** The position ids of a call that passes none. *)
Definition derive_position_ids (mask_info : MaskInfo)
    (batch_size sequence_length : nat) : result (Array2 Z) :=
  x <- broadcast_to
         (map2 (clip_min 0)
            (map2 (fun v => v - 1) (along_last cumsum (q_segment_ids mask_info))))
         batch_size sequence_length ;;
  Ok (map2 astype_i32 x).

(** The mode of a call that passes none. *)
Definition infer_mode (sequence_length : nat) (past_key_values : option handle)
  : RUNTIME_MODE_TYPES :=
  if (sequence_length =? 1)%nat && bool_decide (past_key_values <> None)
  then MODE_DECODE
  else MODE_TRAIN.

(** [SeedOssModel.__call__], up to the mode inference. *)
Definition prepare (c : ForwardCall) : result Prepared :=
  if both_or_neither c then Raise (ValueError both_or_neither_msg) else
  inputs_embeds <-
    match Call.inputs_embeds c with
    | Some e => Ok e
    | None =>
        match Call.input_ids c with
        | Some ids => Ok (map2 (fun t => embed_tokens (astype_i32 t)) ids)
        | None => Raise (AttributeError "'NoneType' object has no attribute 'astype'")
        end
    end ;;
  let batch_size := shape0 inputs_embeds in
  let sequence_length := shape1 inputs_embeds in
  if negb (Z.of_nat sequence_length <=? SeedOssConfig.max_position_embeddings config)
  then Raise (AssertionError
                (max_position_msg (SeedOssConfig.max_position_embeddings config)
                                  (Z.of_nat sequence_length)))
  else
  let mask_info :=
    dynamic_init (Call.mask_info c) (Call.input_ids c) (Some inputs_embeds)
                 (Call.attention_mask c) in
  position_ids <-
    match Call.position_ids c with
    | Some p => Ok p
    | None => derive_position_ids mask_info batch_size sequence_length
    end ;;
  let mode :=
    match Call.mode c with
    | Some m => m
    | None => infer_mode sequence_length (Call.past_key_values c)
    end in
  Ok (mkPrepared inputs_embeds batch_size sequence_length mask_info position_ids mode).

(** The loop over [enumerate(self.layers)]. *)
Fixpoint run_layers (ls : list nat) (c : ForwardCall) (p : Prepared)
    (past_key_values : handle)
    (hidden_states : HS)
    (all_hidden_states : option (list HS))
    (all_attentions : option (list AttnWeight))
    (st : Store)
  : result (HS * option (list HS) * option (list AttnWeight)) * Store :=
  match ls with
  | [] => (Ok (hidden_states, all_hidden_states, all_attentions), st)
  | layer_idx :: rest =>
      let all_hidden_states :=
        if truthy (Call.output_hidden_states c)
        then (fun t => t ++ [hidden_states]) <$> all_hidden_states
        else all_hidden_states in
      match st !! past_key_values with
      | None => (Raise InvalidReference, st)
      | Some cache =>
          match views cache !! layer_idx with
          | None => (Raise (IndexError "list index out of range"), st)
          | Some cache_view =>
              let layer_outputs :=
                SeedOssDecoderLayer_call layer_idx hidden_states
                  (mask_info p) (position_ids p) (mode p) cache_view
                  (Call.cache_metadata c) (Call.output_attentions c) in
              let hidden_states := DecoderLayerOutput.hidden_states layer_outputs in
              let all_attentions :=
                if truthy (Call.output_attentions c)
                then (fun t => t ++ [DecoderLayerOutput.attention_weight layer_outputs])
                       <$> all_attentions
                else all_attentions in
              let st :=
                <[past_key_values :=
                    mkCache (<[layer_idx := DecoderLayerOutput.cache_view layer_outputs]>
                               (views cache))]> st in
              run_layers rest c p past_key_values hidden_states
                         all_hidden_states all_attentions st
          end
      end
  end.

(** [SeedOssModel.__call__] *)
Definition SeedOssModel_call (c : ForwardCall) (st : Store)
  : result (BaseModelOutput.t HS AttnWeight) * Store :=
  match prepare c with
  | Raise e => (Raise e, st)
  | Ok p =>
      let hidden_states := inputs_embeds p in
      let '(past_key_values, st) :=
        match Call.past_key_values c with
        | Some h => (h, st)
        | None =>
            let h := fresh (dom st) in
            (h, <[h := init_empty (length layers)]> st)
        end in
      let all_attentions :=
        if truthy (Call.output_attentions c) then Some [] else None in
      let all_hidden_states :=
        if truthy (Call.output_hidden_states c) then Some [] else None in
      match run_layers layers c p past_key_values hidden_states
                       all_hidden_states all_attentions st with
      | (Raise e, st) => (Raise e, st)
      | (Ok (hidden_states, all_hidden_states, all_attentions), st) =>
          let hidden_states := norm hidden_states in
          let all_hidden_states :=
            if truthy (Call.output_hidden_states c)
            then (fun t => t ++ [hidden_states]) <$> all_hidden_states
            else all_hidden_states in
          (Ok (BaseModelOutput.mk hidden_states all_hidden_states
                                  all_attentions (Some past_key_values)), st)
      end
  end.

(** The index at which [SeedOssForSequenceClassification.__call__] pools. *)
Definition sequence_lengths (c : ForwardCall) : result index :=
  match SeedOssConfig.pad_token_id config with
  | None => Ok (Scalar (-1))
  | Some pad =>
      match Call.input_ids c with
      | Some input_ids =>
          first_pad <-
            argmax_last (map2 (fun t => if t =? pad then 1 else 0) input_ids) ;;
          Ok (PerSequence
                (map (fun k => (k - 1) mod Z.of_nat (shape1 input_ids)) first_pad))
      | None => Ok (Scalar (-1))
      end
  end.

(** [SeedOssForSequenceClassification.__call__] *)
Definition SeedOssForSequenceClassification_call (c : ForwardCall) (st : Store)
  : result (SequenceClassifierOutput.t HS AttnWeight Logit) * Store :=
  match SeedOssModel_call c st with
  | (Raise e, st) => (Raise e, st)
  | (Ok transformer_outputs, st) =>
      let hidden_states := BaseModelOutput.last_hidden_state transformer_outputs in
      let logits := map2 score hidden_states in
      (batch_size <-
         match Call.input_ids c with
         | Some ids => Ok (shape0 ids)
         | None =>
             match Call.inputs_embeds c with
             | Some e => Ok (shape0 e)
             | None => Raise (AttributeError "'NoneType' object has no attribute 'shape'")
             end
         end ;;
       _ <- (if bool_decide (SeedOssConfig.pad_token_id config = None)
                && negb (batch_size =? 1)%nat
             then Raise (ValueError no_pad_batch_msg)
             else Ok tt) ;;
       sequence_lengths <- sequence_lengths c ;;
       let pooled_logits := take_per_row logits batch_size sequence_lengths in
       Ok (SequenceClassifierOutput.mk pooled_logits
             (BaseModelOutput.hidden_states transformer_outputs)
             (BaseModelOutput.attentions transformer_outputs)
             (Call.past_key_values c)),
       st)
  end.

(** [SeedOssForCausalLM.__call__] *)
Definition SeedOssForCausalLM_call (c : ForwardCall) (apply_lm_head : bool)
    (st : Store)
  : result (CausalLMOutput.t HS AttnWeight LMLogits) * Store :=
  match SeedOssModel_call c st with
  | (Raise e, st) => (Raise e, st)
  | (Ok outputs, st) =>
      let hidden_states := BaseModelOutput.last_hidden_state outputs in
      let logits := if apply_lm_head then Some (lm_head hidden_states) else None in
      (Ok (CausalLMOutput.mk logits
             (BaseModelOutput.last_hidden_state outputs)
             (BaseModelOutput.hidden_states outputs)
             (BaseModelOutput.past_key_values outputs)
             (BaseModelOutput.attentions outputs)),
       st)
  end.

End Model.

(** ** A small concrete engine

    Hidden vectors, logits and cache views are integers: a token embeds
    as itself, attention returns its input and a view that counts the
    positions it has seen, the other sub-layers are the identity. It
    runs the definitions above on concrete calls. *)

Module Toy.

Definition self_attn (layer_idx : nat) (hidden_states : Array2 Z)
    (mask_info : MaskInfo) (position_ids : Array2 Z) (mode : RUNTIME_MODE_TYPES)
    (cache_view : option nat) (cache_metadata : option unit)
    (output_attentions : option bool)
  : AttentionLayerOutput.t (Array2 Z) unit nat :=
  AttentionLayerOutput.mk hidden_states tt
    (Some (default 0%nat cache_view + shape1 hidden_states)%nat).

Definition tensor_add (a b : Array2 Z) : Array2 Z :=
  mkArray2 (shape0 a) (shape1 a) (fun i j => get2 a i j + get2 b i j).

(** Two layers, at most four positions, pad token 1. *)
Definition config : SeedOssConfig.t :=
  SeedOssConfig.mk 16 8 16 2 2 2 "silu" 4 0.02%float 1e-6%float true 1 false
    true false 0.1%float 0.1%float false GC_NONE false 1024 None
    ["full_attention"; "full_attention"]%string 4 None (PyFloat 10000.0%float)
    PyNone (Some 1) 0 2.

(** The same, with no pad token. *)
Definition config_no_pad : SeedOssConfig.t :=
  SeedOssConfig.mk 16 8 16 2 2 2 "silu" 4 0.02%float 1e-6%float true 1 false
    true false 0.1%float 0.1%float false GC_NONE false 1024 None
    ["full_attention"; "full_attention"]%string 4 None (PyFloat 10000.0%float)
    PyNone None 0 2.

Definition prepare (cfg : SeedOssConfig.t) (c : Call.t Z unit) :=
  prepare cfg (fun t => t) c.

Definition SeedOssModel_call (cfg : SeedOssConfig.t) (c : Call.t Z unit)
    (st : gmap handle (TransformerCache nat)) :=
  SeedOssModel_call cfg (fun t => t) self_attn (fun _ h => h) (fun _ h => h)
    (fun _ h => h) (fun f h _ => f h) tensor_add (fun h => h) c st.

Definition SeedOssForSequenceClassification_call (cfg : SeedOssConfig.t)
    (c : Call.t Z unit) (st : gmap handle (TransformerCache nat)) :=
  SeedOssForSequenceClassification_call cfg (fun t => t) self_attn
    (fun _ h => h) (fun _ h => h) (fun _ h => h) (fun f h _ => f h) tensor_add
    (fun h => h) (fun h : Z => h) c st.

Definition SeedOssForCausalLM_call (cfg : SeedOssConfig.t)
    (c : Call.t Z unit) (apply_lm_head : bool)
    (st : gmap handle (TransformerCache nat)) :=
  SeedOssForCausalLM_call cfg (fun t => t) self_attn
    (fun _ h => h) (fun _ h => h) (fun _ h => h) (fun f h _ => f h) tensor_add
    (fun h => h) (fun h : Array2 Z => h) c apply_lm_head st.

(** A call that passes [input_ids] and, possibly, a cache. *)
Definition with_ids (ids : list (list Z)) (past_key_values : option handle)
  : Call.t Z unit :=
  Call.mk (Some (of_rows 0 ids)) None None None None None past_key_values
          None None None.

(** A call that passes [inputs_embeds] only. *)
Definition with_embeds (e : list (list Z)) : Call.t Z unit :=
  Call.mk None (Some (of_rows 0 e)) None None None None None None None None.

(** A call that passes both. *)
Definition with_both (ids e : list (list Z)) : Call.t Z unit :=
  Call.mk (Some (of_rows 0 ids)) (Some (of_rows 0 e)) None None None None None
          None None None.

End Toy.

(** Keyword arguments that set one parameter and leave the rest out. *)
Definition args_layer_types (l : option (list string)) : Args.t :=
  Args.mk None None None None None None None None None None None None None None
          None None None None None None None None None None None None None None
          None (Some l) ∅.

Definition args_head_dim (h : option Z) : Args.t :=
  Args.mk None None None None None None None None None None None None None None
          None None None None None None None None None None (Some h) None None
          None None None ∅.

Definition args_rope (rope_parameters : option (gmap string pyval))
    (rope_theta : option pyval) (kwargs : gmap string pyval) : Args.t :=
  Args.mk None None None None None None None None None None None None None None
          None None (Some rope_parameters) None rope_theta None None None None
          None None None None None None None kwargs.


(** The rotary base as the precedence rule words it: the first supplied
    (non-[None]) value among the theta of the rope-parameters dictionary,
    the explicit argument and the legacy keyword, else 10000.0. *)
Definition rope_theta_by_precedence (from_parameters explicit legacy : pyval)
  : pyval :=
  if is_not_none from_parameters then from_parameters
  else if is_not_none explicit then explicit
  else if is_not_none legacy then legacy
  else PyFloat 10000.0%float.

(** What a construction supplies for the rotary base, source by source. *)
Definition theta_in_rope_parameters (a : Args.t) : pyval :=
  match arg (Args.rope_parameters a) None with
  | Some params => dict_get params "rope_theta"
  | None => PyNone
  end.

Definition theta_argument (a : Args.t) : pyval :=
  arg (Args.rope_theta a) PyNone.

Definition theta_legacy_keyword (a : Args.t) : pyval :=
  dict_get (Args.kwargs a) "rope_theta".

(** The [sequence_length] that [SeedOssModel.__call__] binds from the shape
    of its embeddings: the second axis of [inputs_embeds] when it is
    passed, of [input_ids] otherwise. A call that fails the argument check
    never binds one. *)
Definition call_sequence_length {Hidden Metadata} (c : Call.t Hidden Metadata)
  : option nat :=
  if both_or_neither c then None else
  match Call.inputs_embeds c with
  | Some e => Some (shape1 e)
  | None =>
      match Call.input_ids c with
      | Some ids => Some (shape1 ids)
      | None => None
      end
  end.

(** A prior cache is supplied and at least one of its views is filled. *)
Definition nonempty_prior_cache {Hidden Metadata View}
    (st : gmap handle (TransformerCache View)) (c : Call.t Hidden Metadata)
  : bool :=
  match Call.past_key_values c with
  | Some h =>
      match st !! h with
      | Some cache => negb (is_empty_cache cache)
      | None => false
      end
  | None => false
  end.

(** [k] is the first position at which [l] takes its largest value. *)
Definition first_max (l : list Z) (k : nat) : Prop :=
  exists y, l !! k = Some y /\
    forall j x, l !! j = Some x -> x <= y /\ ((j < k)%nat -> x < y).

(** The 0/1 row [jnp.equal(row, pad).astype("i4")]. *)
Definition is_pad (pad : Z) (r : list Z) : list Z :=
  map (fun t => if t =? pad then 1 else 0) r.

(** ** The mask details of a configuration *)

(** [AttnMaskDetail(mask_type=..., size=None)]. The mask types and the
    conversion [AttnMaskType.from_hf] from a layer-type string, which may
    refuse a string, belong to the infrastructure and enter as a
    parameter. *)
Module AttnMaskDetail.
Record t (MaskType : Type) := mk {
  mask_type : MaskType;
  size : option Z
}.
Arguments mk {MaskType} _ _.
Arguments mask_type {MaskType} _.
Arguments size {MaskType} _.
End AttnMaskDetail.

(** The loop of [get_mask_details] over [enumerate(self.layer_types)],
    from index [idx] on. *)
Fixpoint get_mask_details_from {MaskType} (from_hf : string -> result MaskType)
    (idx : nat) (layer_types : list string)
    (mask_details : gmap nat (AttnMaskDetail.t MaskType))
  : result (gmap nat (AttnMaskDetail.t MaskType)) :=
  match layer_types with
  | [] => Ok mask_details
  | layer_type :: rest =>
      m <- from_hf layer_type ;;
      get_mask_details_from from_hf (S idx) rest
        (<[idx := AttnMaskDetail.mk m None]> mask_details)
  end.

(** [SeedOssConfig.get_mask_details] *)
Definition get_mask_details {MaskType} (from_hf : string -> result MaskType)
    (cfg : SeedOssConfig.t) : result (gmap nat (AttnMaskDetail.t MaskType)) :=
  get_mask_details_from from_hf 0 (SeedOssConfig.layer_types cfg) ∅.

(** What a construction supplies for the rotary scaling, source by source. *)
Definition scaling_in_rope_parameters (a : Args.t) : option (gmap string pyval) :=
  _extract_rope_scaling (arg (Args.rope_parameters a) None).

Definition scaling_argument (a : Args.t) : pyval :=
  arg (Args.rope_scaling a) PyNone.

Definition scaling_legacy_keyword (a : Args.t) : pyval :=
  dict_get (Args.kwargs a) "rope_scaling".

(** ** The layer stack without the store *)

(** The outputs of the layers [ls], run in order from [hidden_states],
    when layer [i] is handed the view at index [i] of [views0]: what the
    loop of [SeedOssModel.__call__] computes, with the cache read once. *)
Fixpoint layer_outputs {HS AW View}
    (layer : nat -> HS -> option View -> DecoderLayerOutput.t HS AW View)
    (ls : list nat) (views0 : list (option View)) (hidden_states : HS)
  : list (DecoderLayerOutput.t HS AW View) :=
  match ls with
  | [] => []
  | layer_idx :: rest =>
      let o := layer layer_idx hidden_states (default None (views0 !! layer_idx)) in
      o :: layer_outputs layer rest views0 (DecoderLayerOutput.hidden_states o)
  end.

(** The hidden states that leave a stack of layer outputs entered with [hs]. *)
Definition final_hidden {HS AW View}
    (outs : list (DecoderLayerOutput.t HS AW View)) (hs : HS) : HS :=
  default hs (DecoderLayerOutput.hidden_states <$> last outs).

(** The hidden states that enter each layer of such a stack. *)
Definition entering_hidden {HS AW View}
    (outs : list (DecoderLayerOutput.t HS AW View)) (hs : HS) : list HS :=
  take (length outs) (hs :: map DecoderLayerOutput.hidden_states outs).

(** The cache a base-model call of [n] layers works on: the object the
    caller's handle names, or the empty cache the call creates. *)
Definition cache_at_entry {Hidden Metadata View} (n : nat)
    (st : gmap handle (TransformerCache View)) (c : Call.t Hidden Metadata)
  : option (TransformerCache View) :=
  match Call.past_key_values c with
  | Some h => st !! h
  | None => Some (init_empty n)
  end.

(** The batch size the classification head reads off its inputs. *)
Definition call_batch_size {Hidden Metadata} (c : Call.t Hidden Metadata)
  : option nat :=
  match Call.input_ids c with
  | Some ids => Some (shape0 ids)
  | None =>
      match Call.inputs_embeds c with
      | Some e => Some (shape0 e)
      | None => None
      end
  end.

(** A call that passes [input_ids], an attention mask and a cache. *)
Definition toy_call (ids : list (list Z)) (attention_mask : option (list (list bool)))
    (past_key_values : option handle) (output_attentions output_hidden_states : option bool)
  : Call.t Z unit :=
  Call.mk (Some (of_rows 0 ids)) None (of_rows false <$> attention_mask) None None
          None past_key_values None output_attentions output_hidden_states.

(** [AttnMaskType.from_hf] on the two layer types of the model family. *)
Inductive toy_mask_type :=
| FULL
| SLIDING.

Definition toy_from_hf (layer_type : string) : result toy_mask_type :=
  if String.eqb layer_type "full_attention" then Ok FULL
  else if String.eqb layer_type "sliding_attention" then Ok SLIDING
  else Raise (ValueError "unknown layer type").

(** * Properties of the configuration *)

Section ConfigFacts.

Import SeedOssConfig.

(** Every field a successful construction resolves, read off the body. *)
Lemma init_ok_inv (a : Args.t) (cfg : SeedOssConfig.t) :
  __init__ a = Ok cfg ->
  layer_types cfg =
    list_or (arg (Args.layer_types a) None)
      (replicate (Z.to_nat (arg (Args.num_hidden_layers a) 64)) "full_attention"%string)
  /\ num_hidden_layers cfg = arg (Args.num_hidden_layers a) 64
  /\ hidden_size cfg = arg (Args.hidden_size a) 4096
  /\ num_attention_heads cfg = arg (Args.num_attention_heads a) 80
  /\ match arg (Args.head_dim a) (Some 128) with
     | Some h => Ok h
     | None => floordiv (hidden_size cfg) (num_attention_heads cfg)
     end = Ok (head_dim cfg)
  /\ rope_theta cfg =
       rope_theta_by_precedence (theta_in_rope_parameters a) (theta_argument a)
         (theta_legacy_keyword a).
Proof.
  unfold __init__, theta_in_rope_parameters, theta_argument,
    theta_legacy_keyword, rope_theta_by_precedence.
  cbv zeta. cbn [dict_pop fst snd].
  destruct (arg (Args.head_dim a) (Some 128)) as [h|] eqn:Eh; cbn [bind].
  all: unfold floordiv.
  2: destruct (arg (Args.num_attention_heads a) 80 =? 0) eqn:E0; cbn [bind]; [done|].
  all: intros [= <-]; cbn; rewrite ?E0; repeat split.
  all: unfold dict_get; rewrite lookup_delete_ne by done.
  all: destruct (arg (Args.rope_parameters a) None) as [params|]; cbn.
  all: repeat match goal with
       | |- context [is_not_none ?v] =>
           let E := fresh "E" in
           destruct (is_not_none v) eqn:E; rewrite ?E; cbn; try done
       end.
  all: congruence.
Qed.

(** How [head_dim] is resolved, by what the caller passes: a value is
    kept, an explicit [None] takes the floor quotient, and an argument
    left out takes the declared default, 128. *)
Lemma head_dim_resolution (a : Args.t) (cfg : SeedOssConfig.t) :
  __init__ a = Ok cfg ->
  match Args.head_dim a with
  | Some (Some h) => head_dim cfg = h
  | Some None =>
      num_attention_heads cfg <> 0 /\
      head_dim cfg = hidden_size cfg / num_attention_heads cfg
  | None => head_dim cfg = 128
  end.
Proof.
  intros H. apply init_ok_inv in H as (_ & _ & _ & _ & H & _).
  unfold arg in H. destruct (Args.head_dim a) as [[h|]|]; cbn in H.
  - congruence.
  - unfold floordiv in H.
    destruct (num_attention_heads cfg =? 0) eqn:E; [done|].
    split; [lia | congruence].
  - congruence.
Qed.

(** The floor quotient of an explicit [None] need not divide exactly. *)
Lemma head_dim_none_floors :
  exists cfg, __init__ (args_head_dim None) = Ok cfg
    /\ head_dim cfg = 51
    /\ head_dim cfg * num_attention_heads cfg = 4080
    /\ hidden_size cfg = 4096.
Proof. eexists. split; [vm_compute; reflexivity | done]. Qed.

(** C1: the claim is that the resolved [head_dim] is the given value when
    one is given and the quotient [hidden_size // num_attention_heads]
    when none is. The code departs from it on [SeedOssConfig()], which
    gives no [head_dim]: it resolves 128, the default of the signature,
    while the quotient of its [hidden_size] 4096 by its
    [num_attention_heads] 80 is 51. *)
Theorem head_dim_left_out_is_128 :
  exists cfg, __init__ Args.none = Ok cfg
    /\ head_dim cfg = 128
    /\ hidden_size cfg / num_attention_heads cfg = 51.
Proof. eexists. split; [vm_compute; reflexivity | done]. Qed.

(** C4, as stated, fails: a one-entry [layer_types] passed with the
    default 64 layers is stored as it is. *)
Lemma layer_types_supplied_short :
  exists cfg, __init__ (args_layer_types (Some ["full_attention"%string])) = Ok cfg
    /\ length (layer_types cfg) = 1%nat
    /\ num_hidden_layers cfg = 64.
Proof. eexists. split; [vm_compute; reflexivity | done]. Qed.

(** C4, amended: when [layer_types] is left out, [None] or empty, the
    resolved list is "full_attention" repeated [num_hidden_layers] times
    (no entry when that count is negative), so its length is the layer
    count; a non-empty list that is passed is stored unchanged, whatever
    its length. *)
Theorem layer_types_length (a : Args.t) (cfg : SeedOssConfig.t) :
  __init__ a = Ok cfg ->
  match arg (Args.layer_types a) None with
  | Some (t :: ts) => layer_types cfg = t :: ts
  | Some [] | None =>
      Z.of_nat (length (layer_types cfg)) = Z.max 0 (num_hidden_layers cfg)
      /\ Forall (fun t => t = "full_attention"%string) (layer_types cfg)
  end.
Proof.
  intros H. apply init_ok_inv in H as (Hl & Hn & _).
  rewrite Hl, Hn.
  destruct (arg (Args.layer_types a) None) as [[|t ts]|]; cbn [list_or];
    try done.
  all: split; [rewrite length_replicate; lia | apply Forall_replicate; done].
Qed.

Lemma layer_types_length_witness :
  exists cfg, __init__ Args.none = Ok cfg
    /\ Z.of_nat (length (layer_types cfg)) = 64.
Proof.
  destruct (__init__ Args.none) as [cfg|e] eqn:E; [|vm_compute in E; discriminate].
  exists cfg. split; [reflexivity|].
  pose proof (layer_types_length Args.none cfg E) as [H _].
  rewrite H. vm_compute in E. injection E as <-. reflexivity.
Defined.

(** C6: the resolved [rope_theta] is the first supplied value among the
    theta of [rope_parameters], the [rope_theta] argument and the legacy
    [rope_theta] keyword, and 10000.0 when none is supplied. *)
Theorem rope_theta_precedence (a : Args.t) (cfg : SeedOssConfig.t) :
  __init__ a = Ok cfg ->
  rope_theta cfg =
    rope_theta_by_precedence (theta_in_rope_parameters a) (theta_argument a)
      (theta_legacy_keyword a)
  /\ (theta_in_rope_parameters a <> PyNone ->
      rope_theta cfg = theta_in_rope_parameters a)
  /\ (theta_in_rope_parameters a = PyNone -> theta_argument a <> PyNone ->
      rope_theta cfg = theta_argument a)
  /\ (theta_in_rope_parameters a = PyNone -> theta_argument a = PyNone ->
      theta_legacy_keyword a <> PyNone ->
      rope_theta cfg = theta_legacy_keyword a)
  /\ (theta_in_rope_parameters a = PyNone -> theta_argument a = PyNone ->
      theta_legacy_keyword a = PyNone ->
      rope_theta cfg = PyFloat 10000.0%float).
Proof.
  intros H. apply init_ok_inv in H as (_ & _ & _ & _ & _ & H).
  rewrite H. unfold rope_theta_by_precedence.
  destruct (theta_in_rope_parameters a), (theta_argument a),
    (theta_legacy_keyword a); cbn; repeat split; intros; congruence.
Qed.

Lemma rope_theta_precedence_witness :
  exists cfg,
    __init__ (args_rope (Some {[ "rope_theta"%string := PyFloat 500000.0%float ]})
                        (Some (PyFloat 20000.0%float))
                        {[ "rope_theta"%string := PyFloat 30000.0%float ]}) = Ok cfg
    /\ rope_theta cfg = PyFloat 500000.0%float.
Proof.
  destruct (__init__ _) as [cfg|e] eqn:E; [|vm_compute in E; discriminate].
  exists cfg. split; [reflexivity|].
  pose proof (rope_theta_precedence _ cfg E) as (_ & H & _).
  rewrite H; [reflexivity | vm_compute; discriminate].
Defined.

(** The remaining fields a successful construction resolves. *)
Lemma init_ok_more (a : Args.t) (cfg : SeedOssConfig.t) :
  __init__ a = Ok cfg ->
  num_key_value_heads cfg =
    match arg (Args.num_key_value_heads a) (Some 8) with
    | None => arg (Args.num_attention_heads a) 80
    | Some n => n
    end
  /\ rope_parameters cfg = arg (Args.rope_parameters a) None
  /\ rope_scaling cfg =
       match scaling_in_rope_parameters a with
       | Some d => PyDict d
       | None =>
           if is_not_none (scaling_argument a) then scaling_argument a
           else scaling_legacy_keyword a
       end
  /\ pad_token_id cfg = arg (Args.pad_token_id a) (Some 1).
Proof.
  unfold __init__, scaling_in_rope_parameters, scaling_argument,
    scaling_legacy_keyword.
  cbv zeta. cbn [dict_pop fst snd].
  destruct (arg (Args.head_dim a) (Some 128)) as [h|]; cbn [bind].
  all: unfold floordiv.
  2: destruct (arg (Args.num_attention_heads a) 80 =? 0); cbn [bind]; [done|].
  all: intros [= <-]; cbn; done.
Qed.

(** When a construction raises, and what. *)
Lemma init_raise_inv (a : Args.t) (e : exn) :
  __init__ a = Raise e ->
  arg (Args.head_dim a) (Some 128) = None
  /\ arg (Args.num_attention_heads a) 80 = 0
  /\ e = ZeroDivisionError "integer division or modulo by zero".
Proof.
  unfold __init__. cbv zeta. cbn [dict_pop fst snd].
  destruct (arg (Args.head_dim a) (Some 128)) as [h|]; cbn [bind]; [done|].
  unfold floordiv.
  destruct (arg (Args.num_attention_heads a) 80 =? 0) eqn:E; cbn [bind]; [|done].
  apply Z.eqb_eq in E. intros [= <-]. done.
Qed.

(** The field resolution fails exactly on a [None] head dimension over
    zero heads. *)
Lemma init_raise_iff (a : Args.t) :
  (exists e, __init__ a = Raise e) <->
  Args.head_dim a = Some None /\ arg (Args.num_attention_heads a) 80 = 0.
Proof.
  split.
  - intros [e H]. apply init_raise_inv in H as (Hh & Hn & _).
    split; [|done]. unfold arg in Hh. by destruct (Args.head_dim a) as [[?|]|].
  - intros [Hh Hn]. eexists.
    unfold __init__. cbv zeta. cbn [dict_pop fst snd].
    rewrite Hh. change (arg (Some None) (Some 128)) with (@None Z).
    cbn [bind]. unfold floordiv. rewrite Hn. reflexivity.
Qed.

(** X1: what a construction can raise. With [head_dim] passed as [None]
    and [num_attention_heads] zero it raises the division-by-zero error of
    the quotient, and the base class is not reached. In every other case
    the fields resolve and the outcome is the base class's: its error on
    the forwarded arguments, or the configuration. The keywords forwarded
    to the base class never hold the two legacy rope keys. *)
Theorem construct_errors (base_init : BaseArgs.t -> result unit) (a : Args.t) :
  (Args.head_dim a = Some None /\ arg (Args.num_attention_heads a) 80 = 0 ->
   construct base_init a
   = Raise (ZeroDivisionError "integer division or modulo by zero"))
  /\ (~ (Args.head_dim a = Some None /\ arg (Args.num_attention_heads a) 80 = 0) ->
      exists cfg,
        __init__ a = Ok cfg
        /\ construct base_init a
           = match base_init (forwarded a) with
             | Ok _ => Ok cfg
             | Raise e => Raise e
             end)
  /\ BaseArgs.kwargs (forwarded a) !! "rope_scaling"%string = None
  /\ BaseArgs.kwargs (forwarded a) !! "rope_theta"%string = None
  /\ forall k, k <> "rope_scaling"%string -> k <> "rope_theta"%string ->
       BaseArgs.kwargs (forwarded a) !! k = Args.kwargs a !! k.
Proof.
  split; [|split; [|split; [|split]]].
  - intros H. apply init_raise_iff in H as [e H]. unfold construct.
    rewrite H. cbn [bind]. by apply init_raise_inv in H as (_ & _ & ->).
  - intros H. unfold construct.
    destruct (__init__ a) as [cfg|e] eqn:E.
    + exists cfg. split; [done|]. cbn [bind]. by destruct (base_init _).
    + exfalso. apply H, init_raise_iff. by exists e.
  - cbn. rewrite lookup_delete_ne by done. apply lookup_delete_eq.
  - cbn. apply lookup_delete_eq.
  - intros k H1 H2. cbn. by rewrite !lookup_delete_ne.
Qed.

(** X2: the resolved [num_key_value_heads] is the value that is passed,
    [num_attention_heads] when [None] is passed, and 8 when the argument
    is left out. *)
Theorem num_key_value_heads_resolution (a : Args.t) (cfg : SeedOssConfig.t) :
  __init__ a = Ok cfg ->
  match Args.num_key_value_heads a with
  | Some (Some n) => num_key_value_heads cfg = n
  | Some None => num_key_value_heads cfg = num_attention_heads cfg
  | None => num_key_value_heads cfg = 8
  end.
Proof.
  intros H. pose proof (init_ok_inv a cfg H) as (_ & _ & _ & Hn & _).
  apply init_ok_more in H as (Hk & _).
  rewrite Hk, Hn. unfold arg at 1.
  by destruct (Args.num_key_value_heads a) as [[n|]|].
Qed.

Lemma num_key_value_heads_resolution_witness :
  exists cfg,
    __init__ (Args.mk None None None None (Some 16) (Some None) None None None
                None None None None None None None None None None None None
                None None None None None None None None None ∅) = Ok cfg
    /\ num_key_value_heads cfg = 16.
Proof.
  destruct (__init__ _) as [cfg|e] eqn:E; [|vm_compute in E; discriminate].
  exists cfg. split; [reflexivity|].
  pose proof (num_key_value_heads_resolution _ cfg E) as H. cbn in H.
  rewrite H. vm_compute in E. injection E as <-. reflexivity.
Defined.

(** X3: whatever is passed, also explicit [None]s everywhere, the
    [rope_theta] of a constructed configuration is never [None]. *)
Theorem rope_theta_never_none (a : Args.t) (cfg : SeedOssConfig.t) :
  __init__ a = Ok cfg -> is_not_none (rope_theta cfg) = true.
Proof.
  intros H. apply init_ok_inv in H as (_ & _ & _ & _ & _ & H).
  rewrite H. unfold rope_theta_by_precedence.
  destruct (is_not_none (theta_in_rope_parameters a)) eqn:E1; [done|].
  destruct (is_not_none (theta_argument a)) eqn:E2; [done|].
  destruct (is_not_none (theta_legacy_keyword a)) eqn:E3; [done|].
  reflexivity.
Qed.

Lemma rope_theta_never_none_witness :
  exists cfg,
    __init__ (args_rope (Some {[ "rope_theta"%string := PyNone ]}) (Some PyNone)
                        {[ "rope_theta"%string := PyNone ]}) = Ok cfg
    /\ is_not_none (rope_theta cfg) = true
    /\ rope_theta cfg = PyFloat 10000.0%float.
Proof.
  destruct (__init__ _) as [cfg|e] eqn:E; [|vm_compute in E; discriminate].
  exists cfg. split; [reflexivity|].
  split; [exact (rope_theta_never_none _ cfg E)|].
  vm_compute in E. injection E as <-. reflexivity.
Defined.

(** X4: the scaling that [_extract_rope_scaling] splits off holds every
    field of the payload but the theta key, with its value, and is
    reported as [None] exactly when there is no payload or the payload has
    no such field. *)
Theorem extract_rope_scaling_fields (rope_parameters : option (gmap string pyval)) :
  (forall scaling, _extract_rope_scaling rope_parameters = Some scaling ->
     exists params, rope_parameters = Some params
       /\ scaling !! "rope_theta"%string = None
       /\ scaling <> ∅
       /\ forall k, k <> "rope_theta"%string -> scaling !! k = params !! k)
  /\ (_extract_rope_scaling rope_parameters = None <->
      forall params, rope_parameters = Some params ->
        forall k, k <> "rope_theta"%string -> params !! k = None).
Proof.
  unfold _extract_rope_scaling.
  destruct rope_parameters as [params|]; [|split; [done|split; done]].
  destruct (decide (filter _ params = ∅)) as [He|Hne].
  - split; [done|]. split; [|done]. intros _ params' [= <-] k Hk.
    destruct (params !! k) as [v|] eqn:Hv; [|done].
    exfalso. assert (filter (fun kv : string * pyval => kv.1 ≠ "rope_theta"%string)
                       params !! k = Some v) as Hf
      by (apply map_lookup_filter_Some; done).
    rewrite He in Hf. by rewrite lookup_empty in Hf.
  - split.
    + intros scaling [= <-]. exists params. repeat split; try done.
      * apply map_lookup_filter_None. right. intros v _ Hp. by apply Hp.
      * intros k Hk. destruct (params !! k) as [v|] eqn:Hv.
        -- by apply map_lookup_filter_Some.
        -- apply map_lookup_filter_None. by left.
    + split; [done|]. intros H. exfalso. apply Hne.
      apply map_eq. intros k. rewrite lookup_empty.
      apply map_lookup_filter_None.
      destruct (decide (k = "rope_theta"%string)) as [->|Hk].
      * right. intros v _ Hp. by apply Hp.
      * left. by apply (H params).
Qed.

(** X5: splitting loses nothing. When a scaling is returned it is not
    empty, and putting the theta back into it gives the payload again (a
    payload without a theta is its own scaling). When [None] is returned
    the payload held nothing to split off: it was empty, or held the
    theta alone. *)
Theorem extract_rope_scaling_round_trip (params : gmap string pyval) :
  match _extract_rope_scaling (Some params) with
  | Some scaling =>
      scaling <> ∅
      /\ match params !! "rope_theta"%string with
         | Some theta => <["rope_theta"%string := theta]> scaling = params
         | None => scaling = params
         end
  | None =>
      match params !! "rope_theta"%string with
      | Some theta => params = {[ "rope_theta"%string := theta ]}
      | None => params = ∅
      end
  end.
Proof.
  unfold _extract_rope_scaling.
  assert (forall k, k <> "rope_theta"%string ->
            filter (fun kv : string * pyval => kv.1 ≠ "rope_theta"%string) params !! k
            = params !! k) as Hother.
  { intros k Hk. destruct (params !! k) as [v|] eqn:Hv.
    - by apply map_lookup_filter_Some.
    - apply map_lookup_filter_None. by left. }
  destruct (decide (filter _ params = ∅)) as [He|Hne].
  - destruct (params !! "rope_theta"%string) as [theta|] eqn:Ht.
    + apply map_eq. intros k.
      destruct (decide (k = "rope_theta"%string)) as [->|Hk].
      * by rewrite lookup_singleton_eq.
      * rewrite lookup_singleton_ne by done.
        by rewrite <- Hother, He, lookup_empty.
    + apply map_eq. intros k. rewrite lookup_empty.
      destruct (decide (k = "rope_theta"%string)) as [->|Hk]; [done|].
      by rewrite <- Hother, He, lookup_empty.
  - split; [done|].
    destruct (params !! "rope_theta"%string) as [theta|] eqn:Ht.
    + apply map_eq. intros k.
      destruct (decide (k = "rope_theta"%string)) as [->|Hk].
      * by rewrite lookup_insert_eq.
      * rewrite lookup_insert_ne by done. by apply Hother.
    + apply map_eq. intros k.
      destruct (decide (k = "rope_theta"%string)) as [->|Hk].
      * rewrite Ht. apply map_lookup_filter_None. by left.
      * by apply Hother.
Qed.

(** X6: the resolved [rope_scaling] is the scaling split off
    [rope_parameters] when there is one -- it then overrides the
    [rope_scaling] argument and never holds the theta key --, else the
    [rope_scaling] argument when it is not [None], else the legacy
    keyword, and [None] when none of them is supplied. *)
Theorem rope_scaling_precedence (a : Args.t) (cfg : SeedOssConfig.t) :
  __init__ a = Ok cfg ->
  (forall d, scaling_in_rope_parameters a = Some d ->
     rope_scaling cfg = PyDict d /\ d !! "rope_theta"%string = None)
  /\ (scaling_in_rope_parameters a = None -> scaling_argument a <> PyNone ->
      rope_scaling cfg = scaling_argument a)
  /\ (scaling_in_rope_parameters a = None -> scaling_argument a = PyNone ->
      rope_scaling cfg = scaling_legacy_keyword a).
Proof.
  intros H. apply init_ok_more in H as (_ & _ & H & _). rewrite H.
  repeat split.
  - by rewrite H0.
  - unfold scaling_in_rope_parameters, _extract_rope_scaling in H0.
    destruct (arg (Args.rope_parameters a) None) as [params|]; [|done].
    destruct (decide _) in H0; [done|]. injection H0 as <-.
    apply map_lookup_filter_None. right. intros v _ Hp. by apply Hp.
  - intros -> Hne. by destruct (scaling_argument a).
  - intros -> ->. done.
Qed.

Lemma rope_scaling_precedence_witness :
  exists cfg,
    __init__ (Args.mk None None None None None None None None None None None
                None None None None None
                (Some (Some {[ "rope_theta"%string := PyFloat 500000.0%float;
                               "factor"%string := PyFloat 4.0%float ]}))
                (Some (PyDict {[ "factor"%string := PyFloat 2.0%float ]}))
                None None None None None None None None None None None None ∅)
    = Ok cfg
    /\ rope_scaling cfg = PyDict {[ "factor"%string := PyFloat 4.0%float ]}.
Proof.
  destruct (__init__ _) as [cfg|e] eqn:E; [|vm_compute in E; discriminate].
  exists cfg. split; [reflexivity|].
  pose proof (rope_scaling_precedence _ cfg E) as (H & _).
  destruct (H {[ "factor"%string := PyFloat 4.0%float ]}) as [-> _];
    [vm_compute; reflexivity | reflexivity].
Defined.

(** The loop of [get_mask_details] writes one entry per layer type, at
    consecutive indices, and leaves the other indices alone. *)
Lemma get_mask_details_from_ok {MaskType} (from_hf : string -> result MaskType)
    (lts : list string) :
  forall idx md details,
    get_mask_details_from from_hf idx lts md = Ok details ->
    (forall i, (i < idx \/ idx + length lts <= i)%nat -> details !! i = md !! i)
    /\ (forall k t, lts !! k = Some t ->
          exists m, from_hf t = Ok m
            /\ details !! (idx + k)%nat = Some (AttnMaskDetail.mk m None)).
Proof.
  induction lts as [|t rest IH]; intros idx md details; cbn.
  - intros [= <-]. split; [done|]. intros k t Hk. done.
  - destruct (from_hf t) as [m|e] eqn:Hm; cbn [bind]; [|done].
    intros H. apply IH in H as [H1 H2]. split.
    + intros i Hi. rewrite H1 by lia. apply lookup_insert_ne. lia.
    + intros [|k] t' Hk; cbn in Hk.
      * injection Hk as <-. exists m. split; [done|].
        rewrite Nat.add_0_r, H1 by lia. apply lookup_insert_eq.
      * destruct (H2 k t' Hk) as (m' & Hm' & Hd). exists m'. split; [done|].
        by replace (idx + S k)%nat with (S idx + k)%nat by lia.
Qed.

Lemma get_mask_details_from_size {MaskType} (from_hf : string -> result MaskType)
    (lts : list string) :
  forall idx md details,
    (forall i, (idx <= i)%nat -> md !! i = None) ->
    get_mask_details_from from_hf idx lts md = Ok details ->
    size details = (size md + length lts)%nat.
Proof.
  induction lts as [|t rest IH]; intros idx md details Hfree; cbn.
  - intros [= <-]. lia.
  - destruct (from_hf t) as [m|e]; cbn [bind]; [|done].
    intros H. apply IH in H.
    + rewrite H, map_size_insert_None by (apply Hfree; lia). lia.
    + intros i Hi. rewrite lookup_insert_ne by lia. apply Hfree. lia.
Qed.

Lemma get_mask_details_from_raise {MaskType} (from_hf : string -> result MaskType)
    (lts : list string) :
  forall idx md e,
    get_mask_details_from from_hf idx lts md = Raise e ->
    exists k t, lts !! k = Some t /\ from_hf t = Raise e
      /\ forall j t', (j < k)%nat -> lts !! j = Some t' -> is_ok (from_hf t') = true.
Proof.
  induction lts as [|t rest IH]; intros idx md e; cbn; [done|].
  destruct (from_hf t) as [m|e'] eqn:Hm; cbn [bind].
  - intros H. apply IH in H as (k & t' & Hk & He & Hbefore).
    exists (S k), t'. repeat split; try done.
    intros [|j] t'' Hj Ht''; cbn in Ht''.
    + injection Ht'' as <-. by rewrite Hm.
    + eapply Hbefore; [|done]. lia.
  - intros [= <-]. exists 0%nat, t. repeat split; try done. intros j t' Hj. lia.
Qed.

Lemma get_mask_details_from_returns {MaskType} (from_hf : string -> result MaskType)
    (lts : list string) :
  forall idx md,
    Forall (fun t => is_ok (from_hf t) = true) lts ->
    exists details, get_mask_details_from from_hf idx lts md = Ok details.
Proof.
  induction lts as [|t rest IH]; intros idx md Hall; cbn; [eauto|].
  apply Forall_cons in Hall as [Ht Hrest].
  destruct (from_hf t) as [m|e]; [|done]. cbn [bind]. by apply IH.
Qed.

(** X7: when [get_mask_details] returns, its dictionary has exactly one
    entry per element of [layer_types], keyed by the element's index and
    holding its converted type with no size; when it raises, the error is
    that of the first layer type the conversion refuses. *)
Theorem get_mask_details_entries {MaskType} (from_hf : string -> result MaskType)
    (cfg : SeedOssConfig.t) :
  (forall details, get_mask_details from_hf cfg = Ok details ->
     size details = length (layer_types cfg)
     /\ forall idx,
          match layer_types cfg !! idx with
          | Some t => exists m, from_hf t = Ok m
                        /\ details !! idx = Some (AttnMaskDetail.mk m None)
          | None => details !! idx = None
          end)
  /\ (forall e, get_mask_details from_hf cfg = Raise e ->
        exists k t, layer_types cfg !! k = Some t /\ from_hf t = Raise e
          /\ forall j t', (j < k)%nat -> layer_types cfg !! j = Some t' ->
               is_ok (from_hf t') = true).
Proof.
  unfold get_mask_details. split.
  - intros details H. split.
    + apply get_mask_details_from_size in H; [|intros; apply lookup_empty].
      rewrite H, map_size_empty. done.
    + apply get_mask_details_from_ok in H as [H1 H2]. intros idx.
      destruct (layer_types cfg !! idx) as [t|] eqn:Ht.
      * apply H2 in Ht. done.
      * rewrite H1; [apply lookup_empty|]. apply lookup_ge_None in Ht. lia.
  - intros e H. by apply get_mask_details_from_raise in H.
Qed.

(** X8: for a configuration constructed without [layer_types], and a
    conversion that accepts "full_attention", [get_mask_details] returns
    an entry of that type for every layer index below
    [num_hidden_layers], and no other entry. *)
Theorem get_mask_details_of_default {MaskType} (from_hf : string -> result MaskType)
    (a : Args.t) (cfg : SeedOssConfig.t) (full : MaskType) :
  __init__ a = Ok cfg ->
  arg (Args.layer_types a) None = None ->
  from_hf "full_attention"%string = Ok full ->
  exists details,
    get_mask_details from_hf cfg = Ok details
    /\ Z.of_nat (size details) = Z.max 0 (num_hidden_layers cfg)
    /\ forall idx,
         details !! idx =
           if decide (Z.of_nat idx < num_hidden_layers cfg)
           then Some (AttnMaskDetail.mk full None) else None.
Proof.
  intros H Hlt Hfull. apply init_ok_inv in H as (Hl & Hn & _).
  rewrite Hlt in Hl. cbn [list_or] in Hl. rewrite <- Hn in Hl.
  unfold get_mask_details. rewrite Hl.
  destruct (get_mask_details_from_returns from_hf
              (replicate (Z.to_nat (num_hidden_layers cfg)) "full_attention"%string)
              0 ∅) as [details Hd].
  { apply Forall_replicate. by rewrite Hfull. }
  exists details. split; [done|]. split.
  - apply get_mask_details_from_size in Hd; [|intros; apply lookup_empty].
    rewrite Hd, map_size_empty, length_replicate. lia.
  - apply get_mask_details_from_ok in Hd as [H1 H2]. intros idx.
    destruct (decide (Z.of_nat idx < num_hidden_layers cfg)) as [Hlt'|Hge].
    + destruct (H2 idx "full_attention"%string) as (m & Hm & Hi).
      { apply lookup_replicate_2. lia. }
      rewrite Hfull in Hm. injection Hm as <-. done.
    + rewrite H1; [apply lookup_empty|]. rewrite length_replicate. lia.
Qed.

Lemma get_mask_details_of_default_witness :
  exists cfg details,
    __init__ (Args.mk None None None (Some 2) None None None None None None
                None None None None None None None None None None None None
                None None None None None None None None ∅) = Ok cfg
    /\ get_mask_details toy_from_hf cfg = Ok details
    /\ details !! 1%nat = Some (AttnMaskDetail.mk FULL None)
    /\ details !! 2%nat = None.
Proof.
  destruct (__init__ _) as [cfg|e] eqn:E; [|vm_compute in E; discriminate].
  destruct (get_mask_details_of_default toy_from_hf _ cfg FULL E eq_refl eq_refl)
    as (details & Hd & _ & Hi).
  exists cfg, details. split; [reflexivity|]. split; [exact Hd|].
  assert (num_hidden_layers cfg = 2) as Hn
    by (vm_compute in E; injection E as <-; reflexivity).
  split.
  - rewrite (Hi 1%nat), Hn. reflexivity.
  - rewrite (Hi 2%nat), Hn. reflexivity.
Defined.

End ConfigFacts.

(** * Properties of the array operations *)

Section ArrayFacts.

Lemma row_map2 {A B} (f : A -> B) (a : Array2 A) (i : nat) :
  row (map2 f a) i = map f (row a i).
Proof. unfold row, map2; cbn. by rewrite map_map. Qed.

Lemma nth_tabulate (l : list Z) :
  map (fun j => nth j l 0) (seq 0 (length l)) = l.
Proof.
  apply nth_ext with (d := 0) (d' := 0).
  - by rewrite length_map, length_seq.
  - intros n Hn. rewrite length_map, length_seq in Hn.
    rewrite (nth_indep _ 0 (nth 0%nat l 0)) by (by rewrite length_map, length_seq).
    rewrite (map_nth (fun j => nth j l 0) (seq 0 (length l)) 0%nat n).
    by rewrite seq_nth.
Qed.

Lemma row_along_last (f : list Z -> list Z) (a : Array2 Z) (i : nat) :
  length (f (row a i)) = shape1 a ->
  row (along_last f a) i = f (row a i).
Proof.
  intros H. unfold row at 1, along_last; cbn. rewrite <- H. apply nth_tabulate.
Qed.

Lemma row_ones (b l i : nat) : row (ones b l) i = replicate l 1.
Proof.
  unfold row, ones; cbn. generalize 0%nat.
  induction l as [|l IH]; intros s; cbn; [done|]. by rewrite IH.
Qed.

Lemma length_row {A} (a : Array2 A) (i : nat) : length (row a i) = shape1 a.
Proof. unfold row. by rewrite length_map, length_seq. Qed.

Lemma length_cumsum_from (acc : Z) (l : list Z) :
  length (cumsum_from acc l) = length l.
Proof. revert acc; induction l as [|x l IH]; intros acc; cbn; [done|]. by rewrite IH. Qed.

(** The running sum of [n] ones, started at [acc]. *)
Lemma cumsum_from_ones (acc : Z) (n s : nat) :
  cumsum_from (acc + Z.of_nat s) (replicate n 1)
  = map (fun j => acc + Z.of_nat j + 1) (seq s n).
Proof.
  revert s; induction n as [|n IH]; intros s; cbn; [done|].
  f_equal. replace (acc + Z.of_nat s + 1) with (acc + Z.of_nat (S s)) by lia.
  apply IH.
Qed.

Lemma cumsum_ones (n : nat) :
  cumsum (replicate n 1) = map (fun j => Z.of_nat j + 1) (seq 0 n).
Proof.
  unfold cumsum. etrans; [exact (cumsum_from_ones 0 n 0)|].
  apply map_ext. intros j. lia.
Qed.

Lemma astype_i32_small (z : Z) :
  - 2 ^ 31 <= z < 2 ^ 31 -> astype_i32 z = z.
Proof.
  intros H. unfold astype_i32.
  rewrite Z.mod_small by lia. lia.
Qed.

Lemma broadcast_to_same {A} (x : Array2 A) :
  exists y, broadcast_to x (shape0 x) (shape1 x) = Ok y
    /\ shape0 y = shape0 x /\ shape1 y = shape1 x
    /\ forall i, row y i = row x i.
Proof.
  unfold broadcast_to, broadcastable. rewrite !Nat.eqb_refl. cbn.
  eexists. split; [reflexivity|]. cbn. repeat split.
Qed.

(** [argmax_from] extends a first maximum of a prefix to the whole list. *)
Lemma argmax_from_first_max (l pre : list Z) (best_i : nat) (best : Z) :
  first_max pre best_i -> pre !! best_i = Some best ->
  first_max (pre ++ l) (argmax_from best_i best (length pre) l).
Proof.
  revert pre best_i best.
  induction l as [|x l IH]; intros pre best_i best Hfm Hb; cbn.
  - by rewrite app_nil_r.
  - replace (pre ++ x :: l) with ((pre ++ [x]) ++ l) by (by rewrite <- app_assoc).
    replace (S (length pre)) with (length (pre ++ [x]))
      by (rewrite length_app; cbn; lia).
    destruct Hfm as (y & Hy & Hall).
    assert (y = best) as -> by congruence.
    destruct (best <? x) eqn:E.
    + apply Z.ltb_lt in E. apply IH.
      * exists x. split.
        { rewrite lookup_app_r by lia. by rewrite Nat.sub_diag. }
        intros j v Hj.
        destruct (decide (j < length pre)%nat) as [Hlt|Hge].
        { rewrite lookup_app_l in Hj by done.
          destruct (Hall j v Hj) as [Hle _]. lia. }
        rewrite lookup_app_r in Hj by lia.
        destruct (j - length pre)%nat eqn:Ej; cbn in Hj; [|done].
        injection Hj as <-. split; [lia|lia].
      * rewrite lookup_app_r by lia. by rewrite Nat.sub_diag.
    + apply Z.ltb_ge in E. apply IH.
      * exists best. split.
        { apply lookup_app_l_Some. done. }
        intros j v Hj.
        destruct (decide (j < length pre)%nat) as [Hlt|Hge].
        { rewrite lookup_app_l in Hj by done. by apply Hall. }
        rewrite lookup_app_r in Hj by lia.
        destruct (j - length pre)%nat eqn:Ej; cbn in Hj; [|done].
        injection Hj as <-. split; [lia|].
        intros Hjk. apply lookup_lt_Some in Hy. lia.
      * by apply lookup_app_l_Some.
Qed.

(** [argmax] answers the first position of the maximum. *)
Lemma argmax_first_max (l : list Z) : l <> [] -> first_max l (argmax l).
Proof.
  destruct l as [|x l]; [done|]. intros _. unfold argmax.
  apply (argmax_from_first_max l [x] 0 x); [|done].
  exists x. split; [done|]. intros [|j] v Hj; cbn in Hj; [|done].
  injection Hj as <-. split; lia.
Qed.


(** The first maximum of the indicator of a row that holds the pad token
    is the position of its first pad token. *)
Lemma first_max_is_first_pad (pad : Z) (r : list Z) (k : nat) :
  pad ∈ r -> first_max (is_pad pad r) k ->
  r !! k = Some pad /\ forall j t, (j < k)%nat -> r !! j = Some t -> t <> pad.
Proof.
  intros Hin (y & Hy & Hall).
  apply list_elem_of_lookup_1 in Hin as (i & Hi).
  assert (is_pad pad r !! i = Some 1) as H1.
  { unfold is_pad. rewrite list_lookup_fmap, Hi. cbn. by rewrite Z.eqb_refl. }
  assert (y = 1) as ->.
  { destruct (Hall i 1 H1) as [Hle _].
    unfold is_pad in Hy. rewrite list_lookup_fmap in Hy.
    destruct (r !! k) as [t|]; cbn in Hy; [|done].
    injection Hy as <-. destruct (t =? pad); lia. }
  split.
  - unfold is_pad in Hy. rewrite list_lookup_fmap in Hy.
    destruct (r !! k) as [t|]; cbn in Hy; [|done].
    injection Hy as Hy. destruct (t =? pad) eqn:E; [|done].
    apply Z.eqb_eq in E. by subst.
  - intros j t Hj Ht ->.
    assert (is_pad pad r !! j = Some 1) as Hj1.
    { unfold is_pad. rewrite list_lookup_fmap, Ht. cbn. by rewrite Z.eqb_refl. }
    destruct (Hall j 1 Hj1) as [_ Hlt]. specialize (Hlt Hj). lia.
Qed.

Lemma normalize_index_last (n : nat) :
  (0 < n)%nat -> normalize_index n (-1) = (n - 1)%nat.
Proof. intros H. unfold normalize_index. cbn. lia. Qed.

End ArrayFacts.

(** * Properties of the forward calls *)

Section ModelFacts.

Context {Hidden Logit LMLogits AttnWeight View Metadata : Type}.

Variable config : SeedOssConfig.t.
Variable embed_tokens : Z -> Hidden.
Variable self_attn :
  nat -> Array2 Hidden -> MaskInfo -> Array2 Z -> RUNTIME_MODE_TYPES ->
  option View -> option Metadata -> option bool ->
  AttentionLayerOutput.t (Array2 Hidden) AttnWeight View.
Variable input_layernorm : nat -> Array2 Hidden -> Array2 Hidden.
Variable post_attention_layernorm : nat -> Array2 Hidden -> Array2 Hidden.
Variable mlp : nat -> Array2 Hidden -> Array2 Hidden.
Variable block_wise_ffn :
  (Array2 Hidden -> Array2 Hidden) -> Array2 Hidden -> Z -> Array2 Hidden.
Variable tensor_add : Array2 Hidden -> Array2 Hidden -> Array2 Hidden.
Variable norm : Array2 Hidden -> Array2 Hidden.
Variable score : Hidden -> Logit.
Variable lm_head : Array2 Hidden -> LMLogits.

Abbreviation ForwardCall := (Call.t Hidden Metadata).
Abbreviation Store := (gmap handle (TransformerCache View)).
Abbreviation prepare_call := (prepare config embed_tokens).
Abbreviation run :=
  (run_layers config self_attn input_layernorm post_attention_layernorm mlp
     block_wise_ffn tensor_add).
Abbreviation model_call :=
  (SeedOssModel_call config embed_tokens self_attn input_layernorm
     post_attention_layernorm mlp block_wise_ffn tensor_add norm).
Abbreviation classifier_call :=
  (SeedOssForSequenceClassification_call config embed_tokens self_attn
     input_layernorm post_attention_layernorm mlp block_wise_ffn tensor_add
     norm score).
Abbreviation causal_lm_call :=
  (SeedOssForCausalLM_call config embed_tokens self_attn input_layernorm
     post_attention_layernorm mlp block_wise_ffn tensor_add norm lm_head).

(** Case analysis on the result of the layer loop met in the goal. *)
Ltac case_run Hr :=
  match goal with
  | |- context [run_layers ?cfg ?sa ?il ?pl ?m ?bw ?ta ?ls ?c ?p ?h ?hs ?ahs ?aat ?st] =>
      destruct (run_layers cfg sa il pl m bw ta ls c p h hs ahs aat st)
        as [[[[? ?] ?]|?] ?] eqn:Hr
  end.

Lemma both_or_neither_true (c : ForwardCall) :
  both_or_neither c = true <->
  (Call.input_ids c <> None /\ Call.inputs_embeds c <> None)
  \/ (Call.input_ids c = None /\ Call.inputs_embeds c = None).
Proof.
  unfold both_or_neither.
  destruct (Call.input_ids c), (Call.inputs_embeds c); cbn;
    (split; [intros H | intros [[H1 H2]|[H1 H2]]]);
    first [ done | congruence | left; split; congruence | right; split; congruence ].
Qed.

Lemma both_or_neither_false (c : ForwardCall) :
  both_or_neither c = false <->
  (Call.input_ids c <> None /\ Call.inputs_embeds c = None)
  \/ (Call.input_ids c = None /\ Call.inputs_embeds c <> None).
Proof.
  unfold both_or_neither.
  destruct (Call.input_ids c), (Call.inputs_embeds c); cbn;
    (split; [intros H | intros [[H1 H2]|[H1 H2]]]);
    first [ done | congruence | left; split; congruence | right; split; congruence ].
Qed.

(** The layer loop fails only on the cache it is handed. *)
Lemma run_layers_raise (ls : list nat) (c : ForwardCall)
    (p : Prepared) (h : handle) hs ahs aat (st st' : Store) (e : exn) :
  run ls c p h hs ahs aat st = (Raise e, st') ->
  e = InvalidReference \/ exists m, e = IndexError m.
Proof.
  revert hs ahs aat st.
  induction ls as [|i ls IH]; intros hs ahs aat st; cbn; [done|].
  destruct (st !! h) as [cache|]; [|intros [= <- _]; by left].
  destruct (views cache !! i) as [cv|]; [|intros [= <- _]; right; eauto].
  apply IH.
Qed.

(** What [prepare] has checked when it returns. *)
Lemma prepare_ok_inv (c : ForwardCall) (p : Prepared) :
  prepare_call c = Ok p ->
  both_or_neither c = false
  /\ call_sequence_length c = Some (sequence_length p)
  /\ Z.of_nat (sequence_length p) <= SeedOssConfig.max_position_embeddings config
  /\ shape0 (inputs_embeds p) = batch_size p
  /\ shape1 (inputs_embeds p) = sequence_length p
  /\ mask_info p =
       dynamic_init (Call.mask_info c) (Call.input_ids c)
                    (Some (inputs_embeds p)) (Call.attention_mask c)
  /\ match Call.position_ids c with
     | Some ids => position_ids p = ids
     | None =>
         derive_position_ids (mask_info p) (batch_size p) (sequence_length p)
         = Ok (position_ids p)
     end
  /\ mode p =
       match Call.mode c with
       | Some m => m
       | None => infer_mode (sequence_length p) (Call.past_key_values c)
       end.
Proof.
  unfold prepare, call_sequence_length.
  destruct (both_or_neither c) eqn:Hb; [done|].
  apply both_or_neither_false in Hb.
  destruct (Call.inputs_embeds c) as [e|] eqn:He,
           (Call.input_ids c) as [ids|] eqn:Hi;
    try (exfalso; destruct Hb as [[? ?]|[? ?]]; congruence); cbn [bind].
  all: match goal with
       | |- context [negb (?a <=? ?b)] => destruct (a <=? b) eqn:Hle; cbn [negb]; [|done]
       end.
  all: apply Z.leb_le in Hle; cbn in Hle.
  all: destruct (Call.position_ids c) as [pos|]; cbn [bind].
  all: try (intros [= <-]; cbn; done).
  all: match goal with
       | |- context [derive_position_ids ?m ?b ?l] =>
           destruct (derive_position_ids m b l) as [x|err] eqn:Hd; cbn [bind]; [|done]
       end.
  all: intros [= <-]; cbn; done.
Qed.

(** The errors [prepare] can raise, by cause. *)
Lemma prepare_raise_inv (c : ForwardCall) (e : exn) :
  prepare_call c = Raise e ->
  (both_or_neither c = true /\ e = ValueError both_or_neither_msg)
  \/ (both_or_neither c = false /\
      exists L, call_sequence_length c = Some L /\
        SeedOssConfig.max_position_embeddings config < Z.of_nat L /\
        e = AssertionError
              (max_position_msg (SeedOssConfig.max_position_embeddings config)
                                (Z.of_nat L)))
  \/ (both_or_neither c = false /\
      e = ValueError "Incompatible shapes for broadcasting").
Proof.
  unfold prepare, call_sequence_length.
  destruct (both_or_neither c) eqn:Hb; [intros [= <-]; by left|].
  pose proof Hb as Hb'. apply both_or_neither_false in Hb'.
  destruct (Call.inputs_embeds c) as [e0|] eqn:He,
           (Call.input_ids c) as [ids|] eqn:Hi;
    try (exfalso; destruct Hb' as [[? ?]|[? ?]]; congruence); cbn [bind].
  all: match goal with
       | |- context [negb (?a <=? ?b)] => destruct (a <=? b) eqn:Hle; cbn [negb]
       end.
  all: try (intros [= <-]; right; left; split; [done|];
            apply Z.leb_gt in Hle; cbn in Hle; eexists; split; [done|];
            split; [exact Hle|done]).
  all: destruct (Call.position_ids c) as [pos|]; cbn [bind]; [done|].
  all: unfold derive_position_ids, broadcast_to.
  all: match goal with
       | |- context [if ?b then _ else _] => destruct b; cbn [bind]; [done|]
       end.
  all: intros [= <-]; right; right; done.
Qed.

(** A failed base-model call failed in [prepare] or on its cache. *)
Lemma model_call_raise_inv (c : ForwardCall) (st : Store) (e : exn) :
  (model_call c st).1 = Raise e ->
  prepare_call c = Raise e
  \/ (exists p, prepare_call c = Ok p) /\
     (e = InvalidReference \/ exists m, e = IndexError m).
Proof.
  unfold SeedOssModel_call.
  destruct (prepare_call c) as [p|e0] eqn:Hp; [|cbn; intros [= <-]; by left].
  destruct (Call.past_key_values c) as [h|]; cbv beta iota zeta.
  all: case_run Hr; cbn; [done|].
  all: intros [= <-]; right; split; [eauto|]; eapply run_layers_raise; eauto.
Qed.

(** C5: the base model raises its invalid-argument error exactly when
    [input_ids] and [inputs_embeds] are both passed or both left out; a
    call that passes exactly one of them does not raise it. *)
Theorem input_validation (c : ForwardCall) (st : Store) :
  ((model_call c st).1 = Raise (ValueError both_or_neither_msg) <->
   (Call.input_ids c <> None /\ Call.inputs_embeds c <> None)
   \/ (Call.input_ids c = None /\ Call.inputs_embeds c = None))
  /\ ((Call.input_ids c <> None /\ Call.inputs_embeds c = None)
      \/ (Call.input_ids c = None /\ Call.inputs_embeds c <> None) ->
      (model_call c st).1 <> Raise (ValueError both_or_neither_msg)).
Proof.
  assert ((model_call c st).1 = Raise (ValueError both_or_neither_msg) <->
          both_or_neither c = true) as Hiff.
  { split.
    - intros H. apply model_call_raise_inv in H as [H|[_ [H|[m H]]]]; try done.
      apply prepare_raise_inv in H as [[Hb _]|[[_ (L & _ & _ & H)]|[_ H]]];
        [done|done|].
      unfold both_or_neither_msg in H. discriminate H.
    - intros Hb. unfold SeedOssModel_call, prepare. rewrite Hb. done. }
  split.
  - rewrite Hiff. apply both_or_neither_true.
  - intros H. apply both_or_neither_false in H. rewrite Hiff. congruence.
Qed.

(** C8: a base-model call whose sequence length is [L] raises the
    position-range error when [L] exceeds [max_position_embeddings], and
    does not raise it when [L] equals [max_position_embeddings]. *)
Theorem max_position_check (c : ForwardCall) (st : Store) (L : nat) :
  call_sequence_length c = Some L ->
  (SeedOssConfig.max_position_embeddings config < Z.of_nat L ->
   (model_call c st).1 =
     Raise (AssertionError
              (max_position_msg (SeedOssConfig.max_position_embeddings config)
                                (Z.of_nat L))))
  /\ (Z.of_nat L = SeedOssConfig.max_position_embeddings config ->
      forall m, (model_call c st).1 <> Raise (AssertionError m)).
Proof.
  intros HL.
  assert (both_or_neither c = false) as Hb
    by (unfold call_sequence_length in HL; destruct (both_or_neither c); done).
  split.
  - intros Hgt. unfold SeedOssModel_call, prepare. rewrite Hb.
    unfold call_sequence_length in HL. rewrite Hb in HL.
    apply both_or_neither_false in Hb.
    destruct (Call.inputs_embeds c) as [e|], (Call.input_ids c) as [ids|];
      try (exfalso; destruct Hb as [[? ?]|[? ?]]; congruence);
      injection HL as <-; cbn [bind map2 shape1 shape0].
    all: match goal with
         | |- context [negb (?a <=? ?b)] =>
             destruct (a <=? b) eqn:Hle; cbn [negb]; [apply Z.leb_le in Hle; lia|]
         end.
    all: done.
  - intros Heq m H. apply model_call_raise_inv in H as [H|[_ [H|[m' H]]]]; try done.
    apply prepare_raise_inv in H as [[Hb' _]|[[_ (L' & HL' & Hgt & _)]|[_ H]]];
      [congruence| |done].
    assert (L' = L) as -> by congruence. lia.
Qed.

(** C7, amended: with the mode left unset, the inferred mode is "decode"
    exactly when the sequence length is 1 and a prior cache is passed --
    whatever that cache holds -- and "train" in every other case. *)
Theorem mode_inference (c : ForwardCall) (p : Prepared) :
  prepare_call c = Ok p ->
  Call.mode c = None ->
  call_sequence_length c = Some (sequence_length p)
  /\ (mode p = MODE_DECODE <->
      sequence_length p = 1%nat /\ Call.past_key_values c <> None)
  /\ (mode p = MODE_TRAIN <->
      ~ (sequence_length p = 1%nat /\ Call.past_key_values c <> None)).
Proof.
  intros Hp Hm. apply prepare_ok_inv in Hp as (_ & HL & _ & _ & _ & _ & _ & Hmode).
  rewrite Hm in Hmode. rewrite Hmode. unfold infer_mode.
  split; [done|].
  assert ((sequence_length p =? 1)%nat && bool_decide (Call.past_key_values c <> None)
          = true <->
          sequence_length p = 1%nat /\ Call.past_key_values c <> None) as Hr.
  { rewrite andb_true_iff, Nat.eqb_eq, bool_decide_eq_true. done. }
  destruct ((sequence_length p =? 1)%nat && bool_decide (Call.past_key_values c <> None)).
  - assert (sequence_length p = 1%nat /\ Call.past_key_values c <> None) as Ht
      by (by apply Hr).
    split; split; intros H; done.
  - assert (~ (sequence_length p = 1%nat /\ Call.past_key_values c <> None)) as Hf
      by (intros Ht; apply Hr in Ht; done).
    split; split; intros H; done.
Qed.

(** The position ids derived from segment ids that are all one. *)
Lemma derive_position_ids_ones (b l : nat) (pos : Array2 Z) :
  Z.of_nat l <= 2 ^ 31 ->
  derive_position_ids (mkMaskInfo (ones b l)) b l = Ok pos ->
  forall i, row pos i = map Z.of_nat (seq 0 l).
Proof.
  intros Hl. unfold derive_position_ids. cbn [q_segment_ids].
  set (x := map2 _ _).
  destruct (broadcast_to_same x) as (y & Hy & _ & _ & Hrow).
  change (shape0 x) with b in Hy. change (shape1 x) with l in Hy.
  rewrite Hy. cbn [bind]. intros [= <-] i.
  rewrite row_map2, Hrow. subst x. rewrite !row_map2.
  rewrite row_along_last.
  2:{ unfold cumsum. rewrite length_cumsum_from. apply length_row. }
  rewrite row_ones, cumsum_ones, !map_map.
  apply map_ext_in. intros j Hj. apply in_seq in Hj.
  unfold clip_min. rewrite astype_i32_small; lia.
Qed.

(** A running sum that starts at or below zero and adds nothing positive
    stays at or below zero. *)
Lemma cumsum_from_nonpos (acc : Z) (l : list Z) :
  acc <= 0 -> Forall (fun x => x <= 0) l ->
  forall j, nth j (cumsum_from acc l) 0 <= 0.
Proof.
  revert acc. induction l as [|x l IH]; intros acc Hacc Hall j; cbn.
  - by destruct j.
  - apply Forall_cons in Hall as [Hx Hall].
    destruct j as [|j]; [lia|]. apply IH; [lia|done].
Qed.

(** Position ids derived from segment ids none of which is positive are
    zero everywhere. *)
Lemma derive_position_ids_nonpos (mi : MaskInfo) (b l : nat) (pos : Array2 Z) :
  (forall i j, get2 (q_segment_ids mi) i j <= 0) ->
  derive_position_ids mi b l = Ok pos ->
  shape0 pos = b /\ shape1 pos = l /\ forall i j, get2 pos i j = 0.
Proof.
  intros Hseg. unfold derive_position_ids, broadcast_to.
  destruct (broadcastable _ _ && broadcastable _ _); cbn [bind]; [|done].
  intros [= <-]. cbn [shape0 shape1 map2 get2 along_last].
  split; [done|]. split; [done|]. intros i j.
  match goal with
  | |- astype_i32 (clip_min 0 (nth ?k (cumsum ?r) 0 - 1)) = 0 =>
      assert (nth k (cumsum r) 0 <= 0) as Hle
  end.
  { apply cumsum_from_nonpos; [lia|]. unfold row. apply Forall_map.
    apply Forall_forall. intros x _. apply Hseg. }
  unfold clip_min. rewrite Z.max_l by lia. reflexivity.
Qed.

(** The segment ids the mask library derives are never positive. *)
Lemma dynamic_init_nonpos (ids : option (Array2 Z))
    (emb : option (Array2 Hidden)) (am : option (Array2 bool)) :
  forall i j, get2 (q_segment_ids (dynamic_init None ids emb am)) i j <= 0.
Proof.
  intros i j. unfold dynamic_init.
  destruct am as [am|]; [cbn; by destruct (get2 am i j)|].
  destruct ids as [ids|]; [done|]. by destruct emb.
Qed.

(** C9: the claim is that a call on an unpadded batch of sequence length
    [L], with no explicit position ids and no attention mask, derives the
    position ids [0, 1, ..., L-1] for every sequence. The code departs
    from it: it takes the running sum of the query segment ids of the
    mask metadata as a count of valid tokens, but these ids are 0 on a
    valid token and -1 on a masked one, so the sum less one is negative
    at every token and the clip leaves position 0 everywhere, for every
    call that passes neither position ids nor mask info. *)
Theorem derived_position_ids_are_zero (c : ForwardCall) (p : Prepared) :
  prepare_call c = Ok p ->
  Call.position_ids c = None ->
  Call.mask_info c = None ->
  call_sequence_length c = Some (sequence_length p)
  /\ shape0 (position_ids p) = batch_size p
  /\ shape1 (position_ids p) = sequence_length p
  /\ forall b, row (position_ids p) b = replicate (sequence_length p) 0.
Proof.
  intros Hp Hpos Hmi.
  apply prepare_ok_inv in Hp as (_ & HL & _ & _ & _ & Hmask & Hd & _).
  rewrite Hpos in Hd. rewrite Hmi in Hmask.
  apply derive_position_ids_nonpos in Hd as (H0 & H1 & Hz).
  2:{ rewrite Hmask. apply dynamic_init_nonpos. }
  repeat split; try done.
  intros b. unfold row. rewrite H1.
  assert (forall n s, map (get2 (position_ids p) b) (seq s n) = replicate n 0) as Hrow.
  { induction n as [|n IH]; intros s; cbn; [done|]. by rewrite Hz, IH. }
  apply Hrow.
Qed.

(** A successful base-model call prepared its inputs and ran every layer. *)
Lemma model_call_ok_inv (c : ForwardCall) (st st' : Store)
    (base : BaseModelOutput.t (Array2 Hidden) AttnWeight) :
  model_call c st = (Ok base, st') ->
  exists p h,
    prepare_call c = Ok p
    /\ BaseModelOutput.past_key_values base = Some h
    /\ match Call.past_key_values c with
       | Some h0 => h = h0
       | None => h = fresh (dom st)
       end.
Proof.
  unfold SeedOssModel_call.
  destruct (prepare_call c) as [p|e0] eqn:Hp; [|done].
  destruct (Call.past_key_values c) as [h|]; cbv beta iota zeta.
  all: case_run Hr; [|done].
  all: intros [= <- <-]; eexists _, _; cbn; done.
Qed.

(** What a successful classification call returns, field by field. *)
Lemma classifier_ok_inv (c : ForwardCall) (st st' : Store)
    (out : SequenceClassifierOutput.t (Array2 Hidden) AttnWeight Logit) :
  classifier_call c st = (Ok out, st') ->
  exists base b ix,
    model_call c st = (Ok base, st')
    /\ match Call.input_ids c with
       | Some ids => b = shape0 ids
       | None => exists e, Call.inputs_embeds c = Some e /\ b = shape0 e
       end
    /\ sequence_lengths config c = Ok ix
    /\ SequenceClassifierOutput.logits out =
         take_per_row (map2 score (BaseModelOutput.last_hidden_state base)) b ix
    /\ SequenceClassifierOutput.hidden_states out = BaseModelOutput.hidden_states base
    /\ SequenceClassifierOutput.attentions out = BaseModelOutput.attentions base
    /\ SequenceClassifierOutput.past_key_values out = Call.past_key_values c.
Proof.
  unfold SeedOssForSequenceClassification_call.
  destruct (model_call c st) as [[base|e] st1] eqn:Hm; [|done].
  intros H. injection H as H <-.
  exists base.
  destruct (Call.input_ids c) as [ids|] eqn:Hi; cbn [bind] in H.
  - destruct (bool_decide _ && negb _) in H; cbn [bind] in H; [done|].
    destruct (sequence_lengths config c) as [ix|e] eqn:Hs; cbn [bind] in H; [|done].
    injection H as <-. exists (shape0 ids), ix. cbn. done.
  - destruct (Call.inputs_embeds c) as [e|] eqn:He; cbn [bind] in H; [|done].
    destruct (bool_decide _ && negb _) in H; cbn [bind] in H; [done|].
    destruct (sequence_lengths config c) as [ix|e'] eqn:Hs; cbn [bind] in H; [|done].
    injection H as <-. exists (shape0 e), ix. cbn. eauto 10.
Qed.

(** The pooling index of a call that passes token ids to a model with a
    pad token. *)
Lemma sequence_lengths_with_pad (c : ForwardCall) (pad : Z) (ids : Array2 Z)
    (ix : index) :
  SeedOssConfig.pad_token_id config = Some pad ->
  Call.input_ids c = Some ids ->
  sequence_lengths config c = Ok ix ->
  shape1 ids <> 0%nat
  /\ forall i, (i < shape0 ids)%nat ->
       index_at ix i =
         (Z.of_nat (argmax (is_pad pad (row ids i))) - 1) mod Z.of_nat (shape1 ids).
Proof.
  intros Hpad Hi. unfold sequence_lengths, argmax_last. rewrite Hpad, Hi.
  cbn [shape1 map2].
  destruct (shape1 ids =? 0)%nat eqn:E; cbn [bind]; [done|].
  apply Nat.eqb_neq in E. intros [= <-]. split; [done|].
  intros i Hlt. cbn [index_at]. rewrite nth_lookup.
  unfold rows. cbn [shape0 map2]. rewrite !list_lookup_fmap.
  rewrite lookup_seq_lt by done. cbn [fmap option_fmap option_map default Nat.add].
  rewrite row_map2. done.
Qed.

(** The layer loop returns on a cache that has a view for every layer it
    visits. *)
Lemma run_layers_returns (ls : list nat) (c : ForwardCall) (p : Prepared)
    (h : handle) hs ahs aat (st : Store) (cache : TransformerCache View) :
  st !! h = Some cache ->
  (forall i, i ∈ ls -> (i < length (views cache))%nat) ->
  exists r st', run ls c p h hs ahs aat st = (Ok r, st').
Proof.
  revert hs ahs aat st cache.
  induction ls as [|i ls IH]; intros hs ahs aat st cache Hc Hlt; cbn.
  - eauto.
  - rewrite Hc.
    destruct (views cache !! i) as [cv|] eqn:Hv.
    + eapply IH.
      * apply lookup_insert_eq.
      * intros j Hj. cbn. rewrite length_insert. apply Hlt. by right.
    + apply lookup_ge_None in Hv.
      assert (i < length (views cache))%nat by (apply Hlt; by left). lia.
Qed.

(** A call that passes exactly one input, within the position range and
    with nothing from which a mask of another shape could come, gets
    through [prepare]. *)
Lemma prepare_returns (c : ForwardCall) (L : nat) :
  call_sequence_length c = Some L ->
  Z.of_nat L <= SeedOssConfig.max_position_embeddings config ->
  Call.mask_info c = None ->
  Call.attention_mask c = None ->
  exists p, prepare_call c = Ok p /\ sequence_length p = L.
Proof.
  intros HL Hle Hmi Ham.
  assert (both_or_neither c = false) as Hb
    by (unfold call_sequence_length in HL; destruct (both_or_neither c); done).
  unfold prepare. rewrite Hb.
  unfold call_sequence_length in HL. rewrite Hb in HL.
  apply both_or_neither_false in Hb.
  destruct (Call.inputs_embeds c) as [e|] eqn:He,
           (Call.input_ids c) as [ids|] eqn:Hi;
    try (exfalso; destruct Hb as [[? ?]|[? ?]]; congruence);
    injection HL as <-; cbn [bind map2 shape0 shape1].
  all: match goal with
       | |- context [negb (?a <=? ?b)] =>
           destruct (a <=? b) eqn:E; cbn [negb]; [|apply Z.leb_gt in E; lia]
       end.
  all: destruct (Call.position_ids c) as [pos|]; cbn [bind]; [eauto|].
  all: rewrite Hmi, Ham; cbn [dynamic_init].
  all: unfold derive_position_ids, broadcast_to, broadcastable;
       cbn [q_segment_ids shape0 shape1 map2 along_last zeros];
       rewrite !Nat.eqb_refl; cbn; eauto.
Qed.

(** Without a prior cache, a call that gets through [prepare] returns:
    the cache the model creates has a view for every layer. *)
Lemma model_call_returns (c : ForwardCall) (st : Store) (p : Prepared) :
  prepare_call c = Ok p ->
  Call.past_key_values c = None ->
  exists base st', model_call c st = (Ok base, st').
Proof.
  intros Hp Hnone. unfold SeedOssModel_call. rewrite Hp, Hnone.
  cbv beta iota zeta.
  match goal with
  | |- context [run ?ls ?c ?p ?h ?hs ?ahs ?aat ?st] =>
      destruct (run_layers_returns ls c p h hs ahs aat st
                  (init_empty (length (layers config))))
        as ([[hs' ahs'] aat'] & st1 & Hr)
  end.
  - apply lookup_insert_eq.
  - intros i Hi. cbn. rewrite length_replicate. unfold layers in *.
    apply list_elem_of_In, in_seq in Hi. rewrite length_seq. lia.
  - rewrite Hr. eauto.
Qed.

(** The classification head returns on token ids of a positive length
    within the position range, with a pad token configured, no mask and
    no prior cache. *)
Lemma classifier_call_returns (c : ForwardCall) (st : Store) (ids : Array2 Z)
    (pad : Z) :
  SeedOssConfig.pad_token_id config = Some pad ->
  Call.input_ids c = Some ids ->
  Call.inputs_embeds c = None ->
  (0 < shape1 ids)%nat ->
  Z.of_nat (shape1 ids) <= SeedOssConfig.max_position_embeddings config ->
  Call.mask_info c = None ->
  Call.attention_mask c = None ->
  Call.past_key_values c = None ->
  exists out st', classifier_call c st = (Ok out, st').
Proof.
  intros Hpad Hi He Hpos Hle Hmi Ham Hnone.
  destruct (prepare_returns c (shape1 ids)) as (p & Hp & _); try done.
  { unfold call_sequence_length, both_or_neither. by rewrite Hi, He. }
  destruct (model_call_returns c st p Hp Hnone) as (base & st' & Hm).
  unfold SeedOssForSequenceClassification_call. rewrite Hm, Hi. cbn [bind].
  rewrite Hpad. cbn [bool_decide decide_rel andb bind].
  unfold sequence_lengths, argmax_last. rewrite Hpad, Hi. cbn [shape1 map2].
  destruct (shape1 ids =? 0)%nat eqn:E; [apply Nat.eqb_eq in E; lia|].
  cbn [bind]. eauto.
Qed.


(** C10: a classification call that passes [inputs_embeds] instead of
    [input_ids] pools index -1, the last position of every sequence,
    whether or not a pad token is configured. *)
Theorem pooled_index_with_embeds (c : ForwardCall) (st st' : Store)
    (out : SequenceClassifierOutput.t (Array2 Hidden) AttnWeight Logit)
    (e : Array2 Hidden) :
  Call.input_ids c = None ->
  Call.inputs_embeds c = Some e ->
  classifier_call c st = (Ok out, st') ->
  sequence_lengths config c = Ok (Scalar (-1))
  /\ exists base,
      model_call c st = (Ok base, st')
      /\ let logits := map2 score (BaseModelOutput.last_hidden_state base) in
         SequenceClassifierOutput.logits out = take_per_row logits (shape0 e) (Scalar (-1))
         /\ ((0 < shape1 logits)%nat ->
             SequenceClassifierOutput.logits out =
               map (fun i => get2 logits i (shape1 logits - 1)%nat) (seq 0 (shape0 e))).
Proof.
  intros Hi He Hc.
  apply classifier_ok_inv in Hc as (base & b & ix & Hm & Hb & Hs & Hl & _).
  rewrite Hi in Hb. destruct Hb as (e' & He' & ->).
  assert (e' = e) as -> by congruence.
  assert (ix = Scalar (-1)) as ->.
  { unfold sequence_lengths in Hs. rewrite Hi in Hs.
    destruct (SeedOssConfig.pad_token_id config); congruence. }
  split; [done|]. exists base. split; [done|]. cbv zeta. split; [done|].
  intros Hpos. rewrite Hl. unfold take_per_row. apply map_ext. intros i.
  cbn [index_at]. by rewrite normalize_index_last.
Qed.

(** The layer loop rewrites the views of the cache it is handed, one per
    layer, and touches no other object. *)
Lemma run_layers_store (ls : list nat) (c : ForwardCall) (p : Prepared)
    (h : handle) hs ahs aat (st st' : Store) r (cache : TransformerCache View) :
  run ls c p h hs ahs aat st = (Ok r, st') ->
  st !! h = Some cache ->
  exists cache',
    st' !! h = Some cache'
    /\ length (views cache') = length (views cache)
    /\ forall h', h' <> h -> st' !! h' = st !! h'.
Proof.
  revert hs ahs aat st cache.
  induction ls as [|i ls IH]; intros hs ahs aat st cache; cbn.
  - intros [= _ <-] Hc. eauto.
  - intros Hrun Hc. rewrite Hc in Hrun.
    destruct (views cache !! i) as [cv|]; [|done].
    eapply IH in Hrun as (cache' & H1 & H2 & H3).
    2:{ apply lookup_insert_eq. }
    exists cache'. split; [done|]. split.
    + rewrite H2. cbn. apply length_insert.
    + intros h' Hne. rewrite H3 by done. by rewrite lookup_insert_ne.
Qed.

(** Called without a cache, the base model creates one with a view per
    layer and returns its handle. *)
Lemma model_call_creates_cache (c : ForwardCall) (st st' : Store)
    (base : BaseModelOutput.t (Array2 Hidden) AttnWeight) :
  Call.past_key_values c = None ->
  model_call c st = (Ok base, st') ->
  exists h cache,
    BaseModelOutput.past_key_values base = Some h
    /\ st !! h = None
    /\ st' !! h = Some cache
    /\ length (views cache) = length (layers config).
Proof.
  intros Hnone. unfold SeedOssModel_call.
  destruct (prepare_call c) as [p|e0] eqn:Hp; [|done].
  rewrite Hnone. cbv beta iota zeta.
  case_run Hr; [|done].
  intros [= <- <-].
  eapply run_layers_store in Hr as (cache' & H1 & H2 & _).
  2:{ apply lookup_insert_eq. }
  exists (fresh (dom st)), cache'. cbn. repeat split; try done.
  - apply not_elem_of_dom. apply is_fresh.
  - rewrite H2. cbn. apply length_replicate.
Qed.

(** Called with a cache, the base model returns the handle it was given. *)
Lemma model_call_keeps_cache (c : ForwardCall) (st st' : Store)
    (base : BaseModelOutput.t (Array2 Hidden) AttnWeight) (h : handle) :
  Call.past_key_values c = Some h ->
  model_call c st = (Ok base, st') ->
  BaseModelOutput.past_key_values base = Some h.
Proof.
  intros Hh Hm. apply model_call_ok_inv in Hm as (p & h' & _ & Hb & Hc).
  rewrite Hh in Hc. by subst.
Qed.

(** The causal-LM head returns the cache field of the base model's output. *)
Lemma causal_lm_cache_is_models (c : ForwardCall) (apply_lm_head : bool)
    (st st' : Store) (out : CausalLMOutput.t (Array2 Hidden) AttnWeight LMLogits) :
  causal_lm_call c apply_lm_head st = (Ok out, st') ->
  exists base,
    model_call c st = (Ok base, st')
    /\ CausalLMOutput.past_key_values out = BaseModelOutput.past_key_values base.
Proof.
  unfold SeedOssForCausalLM_call.
  destruct (model_call c st) as [[base|e] st1]; [|done].
  intros [= <- <-]. eauto.
Qed.

(** The classification head returns the cache argument of the call, not
    the cache field of the base model's output: when the call passes no
    cache, the cache the base model creates is not in the record. *)
Lemma classifier_drops_created_cache (c : ForwardCall) (st st' : Store)
    (out : SequenceClassifierOutput.t (Array2 Hidden) AttnWeight Logit) :
  Call.past_key_values c = None ->
  classifier_call c st = (Ok out, st') ->
  SequenceClassifierOutput.past_key_values out = None
  /\ exists base h cache,
      model_call c st = (Ok base, st')
      /\ BaseModelOutput.past_key_values base = Some h
      /\ st' !! h = Some cache
      /\ length (views cache) = length (layers config).
Proof.
  intros Hnone Hc.
  apply classifier_ok_inv in Hc as (base & b & ix & Hm & _ & _ & _ & _ & _ & Hp).
  split; [congruence|].
  destruct (model_call_creates_cache c st st' base Hnone Hm) as (h & cache & ? & ? & ? & ?).
  eauto 10.
Qed.

(** ** The layer loop against the layer stack *)

Abbreviation layer_of c p :=
  (fun i hs cv =>
     SeedOssDecoderLayer_call config self_attn input_layernorm
       post_attention_layernorm mlp block_wise_ffn tensor_add i hs
       (mask_info p) (position_ids p) (mode p) cv
       (Call.cache_metadata c) (Call.output_attentions c)).

(** The layer loop changes no object but the cache it is handed, also
    when it fails. *)
Lemma run_layers_frame (ls : list nat) (c : ForwardCall) (p : Prepared)
    (h h' : handle) hs ahs aat (st st' : Store) r :
  run ls c p h hs ahs aat st = (r, st') -> h' <> h -> st' !! h' = st !! h'.
Proof.
  revert hs ahs aat st.
  induction ls as [|i ls IH]; intros hs ahs aat st; cbn.
  - by intros [= _ <-].
  - destruct (st !! h) as [cache|]; [|by intros [= _ <-]].
    destruct (views cache !! i) as [cv|]; [|by intros [= _ <-]].
    intros Hrun Hne. rewrite (IH _ _ _ _ Hrun Hne). by apply lookup_insert_ne.
Qed.

Lemma layer_outputs_ext {HS AW V}
    (layer : nat -> HS -> option V -> DecoderLayerOutput.t HS AW V)
    (ls : list nat) (v1 v2 : list (option V)) :
  (forall j, j ∈ ls -> v1 !! j = v2 !! j) ->
  forall hs, layer_outputs layer ls v1 hs = layer_outputs layer ls v2 hs.
Proof.
  induction ls as [|i ls IH]; intros Hagree hs; cbn; [done|].
  rewrite (Hagree i) by (by left). f_equal. apply IH.
  intros j Hj. apply Hagree. by right.
Qed.

Lemma length_layer_outputs {HS AW V}
    (layer : nat -> HS -> option V -> DecoderLayerOutput.t HS AW V)
    (ls : list nat) (v : list (option V)) :
  forall hs, length (layer_outputs layer ls v hs) = length ls.
Proof. induction ls as [|i ls IH]; intros hs; cbn; [done|]. by rewrite IH. Qed.

Lemma final_hidden_cons {HS AW V} (o : DecoderLayerOutput.t HS AW V)
    (outs : list (DecoderLayerOutput.t HS AW V)) (hs : HS) :
  final_hidden (o :: outs) hs = final_hidden outs (DecoderLayerOutput.hidden_states o).
Proof.
  unfold final_hidden. destruct outs as [|o' outs]; [done|].
  change (last (o :: o' :: outs)) with (last (o' :: outs)).
  destruct (last (o' :: outs)) as [x|] eqn:E; [done|].
  by apply last_None in E.
Qed.

(** The loop over distinct layers computes the layer stack on the cache
    as it was handed over, and writes at each layer's index the view that
    layer returned. *)
Lemma run_layers_pure (ls : list nat) (c : ForwardCall) (p : Prepared) (h : handle) :
  forall hs ahs aat (st : Store) cache hs' ahs' aat' st',
    NoDup ls ->
    st !! h = Some cache ->
    run ls c p h hs ahs aat st = (Ok (hs', ahs', aat'), st') ->
    hs' = final_hidden (layer_outputs (layer_of c p) ls (views cache) hs) hs
    /\ ahs' =
         (if truthy (Call.output_hidden_states c)
          then (fun t => t ++ entering_hidden
                                (layer_outputs (layer_of c p) ls (views cache) hs) hs)
                 <$> ahs
          else ahs)
    /\ aat' =
         (if truthy (Call.output_attentions c)
          then (fun t => t ++ map DecoderLayerOutput.attention_weight
                                (layer_outputs (layer_of c p) ls (views cache) hs))
                 <$> aat
          else aat)
    /\ exists cache',
         st' !! h = Some cache'
         /\ length (views cache') = length (views cache)
         /\ (forall k j o, ls !! k = Some j ->
               layer_outputs (layer_of c p) ls (views cache) hs !! k = Some o ->
               views cache' !! j = Some (DecoderLayerOutput.cache_view o))
         /\ (forall i, i ∉ ls -> views cache' !! i = views cache !! i).
Proof.
  induction ls as [|i ls IH]; intros hs ahs aat st cache hs' ahs' aat' st' Hnd Hc; cbn.
  - intros [= <- <- <- <-]. repeat split.
    + by destruct (truthy (Call.output_hidden_states c)), ahs; cbn; rewrite ?app_nil_r.
    + by destruct (truthy (Call.output_attentions c)), aat; cbn; rewrite ?app_nil_r.
    + exists cache. repeat split; done.
  - rewrite Hc. destruct (views cache !! i) as [cv|] eqn:Hv; [|done].
    cbn [default]. intros Hrun.
    apply NoDup_cons in Hnd as [Hni Hnd].
    set (o := SeedOssDecoderLayer_call config self_attn input_layernorm
                post_attention_layernorm mlp block_wise_ffn tensor_add i hs
                (mask_info p) (position_ids p) (mode p) cv
                (Call.cache_metadata c) (Call.output_attentions c)) in *.
    eapply IH in Hrun as (Hh & Ha & Hw & cache' & Hc' & Hlen & Hviews & Hframe);
      [|done|apply lookup_insert_eq].
    cbn [views] in *.
    rewrite (layer_outputs_ext _ ls (<[i:=DecoderLayerOutput.cache_view o]> (views cache))
               (views cache)) in Hh, Ha, Hw, Hviews
      by (intros j Hj; apply list_lookup_insert_ne; intros ->; done).
    rewrite length_insert in Hlen.
    repeat split.
    + by rewrite final_hidden_cons.
    + rewrite Ha. unfold entering_hidden. cbn.
      destruct (truthy (Call.output_hidden_states c)), ahs; cbn; try done.
      by rewrite <- app_assoc.
    + rewrite Hw.
      destruct (truthy (Call.output_attentions c)), aat; cbn; try done.
      by rewrite <- app_assoc.
    + exists cache'. repeat split; try done.
      * intros [|k] j o' Hk Ho'; cbn in Hk, Ho'.
        -- injection Hk as <-. injection Ho' as <-.
           rewrite Hframe by done. apply list_lookup_insert_eq.
           by apply lookup_lt_Some in Hv.
        -- eapply Hviews; done.
      * intros j Hj. rewrite Hframe.
        -- apply list_lookup_insert_ne. intros ->. apply Hj. by left.
        -- intros Hin. apply Hj. by right.
Qed.

(** A successful base-model call, read against the layer stack. *)
Lemma model_call_pure (c : ForwardCall) (st st' : Store)
    (base : BaseModelOutput.t (Array2 Hidden) AttnWeight)
    (cache : TransformerCache View) :
  model_call c st = (Ok base, st') ->
  cache_at_entry (length (layers config)) st c = Some cache ->
  exists p h cache',
    prepare_call c = Ok p
    /\ BaseModelOutput.past_key_values base = Some h
    /\ match Call.past_key_values c with
       | Some h0 => h = h0
       | None => h = fresh (dom st)
       end
    /\ BaseModelOutput.last_hidden_state base =
         norm (final_hidden
                 (layer_outputs (layer_of c p) (layers config) (views cache)
                    (inputs_embeds p))
                 (inputs_embeds p))
    /\ BaseModelOutput.hidden_states base =
         (if truthy (Call.output_hidden_states c)
          then Some (entering_hidden
                       (layer_outputs (layer_of c p) (layers config) (views cache)
                          (inputs_embeds p))
                       (inputs_embeds p)
                     ++ [BaseModelOutput.last_hidden_state base])
          else None)
    /\ BaseModelOutput.attentions base =
         (if truthy (Call.output_attentions c)
          then Some (map DecoderLayerOutput.attention_weight
                       (layer_outputs (layer_of c p) (layers config) (views cache)
                          (inputs_embeds p)))
          else None)
    /\ st' !! h = Some cache'
    /\ length (views cache') = length (views cache)
    /\ (forall i o,
          layer_outputs (layer_of c p) (layers config) (views cache)
            (inputs_embeds p) !! i = Some o ->
          views cache' !! i = Some (DecoderLayerOutput.cache_view o))
    /\ (forall i, (length (layers config) <= i)%nat ->
          views cache' !! i = views cache !! i).
Proof.
  unfold SeedOssModel_call, cache_at_entry.
  destruct (prepare_call c) as [p|e0] eqn:Hp; [|done].
  destruct (Call.past_key_values c) as [h|]; cbv beta iota zeta.
  all: case_run Hr; [|done].
  all: intros [= <- <-] Hc.
  2: injection Hc as <-.
  all: eapply run_layers_pure in Hr
         as (Hh & Ha & Hw & cache' & Hc' & Hlen & Hviews & Hframe);
       [|apply NoDup_seq|first [exact Hc | apply lookup_insert_eq]].
  all: eexists p, _, cache'; cbn [BaseModelOutput.past_key_values
         BaseModelOutput.last_hidden_state BaseModelOutput.hidden_states
         BaseModelOutput.attentions].
  all: repeat split; try done.
  all: try (subst; done).
  all: try (rewrite Ha, Hh; by destruct (truthy (Call.output_hidden_states c))).
  all: try (rewrite Hw; by destruct (truthy (Call.output_attentions c))).
  all: try (intros i out_i Hout; eapply Hviews; [|exact Hout];
            apply lookup_lt_Some in Hout; rewrite length_layer_outputs in Hout;
            unfold layers in *; rewrite length_seq in Hout;
            exact (lookup_seq_lt 0 _ i Hout)).
  all: try (intros i Hi; apply Hframe; unfold layers in *;
            rewrite length_seq in Hi; intros Hin;
            apply list_elem_of_In, in_seq in Hin; lia).
Qed.

(** ** Position ids under padding *)





(** ** Traces, cache objects and repeated calls *)

Lemma run_layers_traces (ls : list nat) (c : ForwardCall) (p : Prepared)
    (h : handle) :
  forall hs ahs aat (st : Store) hs' ahs' aat' st',
    run ls c p h hs ahs aat st = (Ok (hs', ahs', aat'), st') ->
    exists t1 t2,
      length t1 = length ls /\ length t2 = length ls
      /\ ahs' = (if truthy (Call.output_hidden_states c)
                 then (fun t => t ++ t1) <$> ahs else ahs)
      /\ aat' = (if truthy (Call.output_attentions c)
                 then (fun t => t ++ t2) <$> aat else aat).
Proof.
  induction ls as [|i ls IH]; intros hs ahs aat st hs' ahs' aat' st'; cbn.
  - intros [= <- <- <- <-]. exists [], []. repeat split.
    + by destruct (truthy (Call.output_hidden_states c)), ahs; cbn; rewrite ?app_nil_r.
    + by destruct (truthy (Call.output_attentions c)), aat; cbn; rewrite ?app_nil_r.
  - destruct (st !! h) as [cache|]; [|done].
    destruct (views cache !! i) as [cv|]; [|done].
    intros Hrun. apply IH in Hrun as (t1 & t2 & H1 & H2 & Ha & Hw).
    eexists (hs :: t1), (_ :: t2). repeat split; cbn; try (by f_equal).
    + rewrite Ha.
      destruct (truthy (Call.output_hidden_states c)), ahs; cbn; try done.
      by rewrite <- app_assoc.
    + rewrite Hw.
      destruct (truthy (Call.output_attentions c)), aat; cbn; try done.
      by rewrite <- app_assoc.
Qed.

(** X10: a base-model call that returns carries a hidden-state trace
    exactly when [output_hidden_states] is true, of one entry per layer
    plus the normalised output, which is its last entry; and an attention
    trace exactly when [output_attentions] is true, of one entry per
    layer. A flag that is [None] or false gives [None], not an empty
    trace. *)
Theorem traces_follow_flags (c : ForwardCall) (st st' : Store)
    (base : BaseModelOutput.t (Array2 Hidden) AttnWeight) :
  model_call c st = (Ok base, st') ->
  match Call.output_hidden_states c with
  | Some true =>
      exists t, BaseModelOutput.hidden_states base = Some t
        /\ length t = S (length (layers config))
        /\ last t = Some (BaseModelOutput.last_hidden_state base)
  | _ => BaseModelOutput.hidden_states base = None
  end
  /\ match Call.output_attentions c with
     | Some true =>
         exists t, BaseModelOutput.attentions base = Some t
           /\ length t = length (layers config)
     | _ => BaseModelOutput.attentions base = None
     end.
Proof.
  unfold SeedOssModel_call.
  destruct (prepare_call c) as [p|e0]; [|done].
  destruct (Call.past_key_values c) as [h|]; cbv beta iota zeta.
  all: case_run Hr; [|done].
  all: intros [= <- <-]; cbn [BaseModelOutput.hidden_states
         BaseModelOutput.attentions BaseModelOutput.last_hidden_state].
  all: apply run_layers_traces in Hr as (t1 & t2 & H1 & H2 & -> & ->).
  all: destruct (Call.output_hidden_states c) as [[|]|],
                (Call.output_attentions c) as [[|]|]; cbn.
  all: split; try done.
  all: try (eexists; split; [reflexivity|]; split;
            [rewrite length_app; cbn; lia | by rewrite last_snoc]).
  all: eexists; split; [reflexivity | done].
Qed.

(** The loop fails on the first layer for which the cache has no view. *)
Lemma run_layers_short (ls : list nat) (c : ForwardCall) (p : Prepared)
    (h : handle) :
  forall hs ahs aat (st : Store) cache,
    st !! h = Some cache ->
    (exists i, i ∈ ls /\ (length (views cache) <= i)%nat) ->
    exists st', run ls c p h hs ahs aat st
                = (Raise (IndexError "list index out of range"), st').
Proof.
  induction ls as [|i ls IH]; intros hs ahs aat st cache Hc (j & Hj & Hle); cbn.
  - by apply elem_of_nil in Hj.
  - rewrite Hc. destruct (views cache !! i) as [cv|] eqn:Hv; [|eauto].
    eapply IH.
    + apply lookup_insert_eq.
    + apply lookup_lt_Some in Hv. exists j. cbn. rewrite length_insert.
      split; [|done]. apply elem_of_cons in Hj as [->|Hj]; [lia|done].
Qed.

Lemma model_call_with_cache (c : ForwardCall) (st : Store) (p : Prepared)
    (h : handle) (cache : TransformerCache View) :
  prepare_call c = Ok p ->
  Call.past_key_values c = Some h ->
  st !! h = Some cache ->
  ((length (layers config) <= length (views cache))%nat ->
   exists base st', model_call c st = (Ok base, st'))
  /\ ((length (views cache) < length (layers config))%nat ->
      (model_call c st).1 = Raise (IndexError "list index out of range")).
Proof.
  intros Hp Hh Hc. unfold SeedOssModel_call. rewrite Hp, Hh.
  cbv beta iota zeta. split; intros Hlen.
  - match goal with
    | |- context [run ?ls ?c ?p ?h ?hs ?ahs ?aat ?st] =>
        destruct (run_layers_returns ls c p h hs ahs aat st cache)
          as ([[hs' ahs'] aat'] & st1 & Hr)
    end; [done| |rewrite Hr; eauto].
    intros i Hi. unfold layers in *. rewrite length_seq in Hlen.
    apply list_elem_of_In, in_seq in Hi. lia.
  - match goal with
    | |- context [run ?ls ?c ?p ?h ?hs ?ahs ?aat ?st] =>
        destruct (run_layers_short ls c p h hs ahs aat st cache) as (st1 & Hr)
    end; [done| |by rewrite Hr].
    exists (length (views cache)). split; [|done].
    unfold layers in *. rewrite length_seq in Hlen.
    apply list_elem_of_In, in_seq. lia.
Qed.

(** X11: a call on a cache the caller passed looks up view [layer_idx] of
    it for every layer. A call that returns therefore had a view for every
    layer; and on a cache with no view at all the call fails with the index
    error of the first lookup, before any layer has run, and leaves the
    store as it was. *)
Theorem passed_cache_is_read_per_layer (c : ForwardCall) (st : Store)
    (p : Prepared) (h : handle) (cache : TransformerCache View) :
  prepare_call c = Ok p ->
  Call.past_key_values c = Some h ->
  st !! h = Some cache ->
  (is_ok (model_call c st).1 = true ->
   (length (layers config) <= length (views cache))%nat)
  /\ (views cache = [] -> layers config <> [] ->
      model_call c st = (Raise (IndexError "list index out of range"), st)).
Proof.
  intros Hp Hh Hc. split.
  - intros Hok.
    destruct (le_lt_dec (length (layers config)) (length (views cache)))
      as [|Hlt]; [done|].
    apply (model_call_with_cache c st p h cache Hp Hh Hc) in Hlt.
    by rewrite Hlt in Hok.
  - intros Hv Hl. unfold SeedOssModel_call. rewrite Hp, Hh.
    cbv beta iota zeta. unfold layers in *.
    destruct (Z.to_nat _) as [|n]; [done|]. cbn [seq run_layers].
    rewrite Hc, Hv. reflexivity.
Qed.

(** X12: a base-model call, whether it returns or raises, changes no
    cache object other than the one it was passed; called without a
    cache it changes no existing object at all. *)
Theorem other_caches_untouched (c : ForwardCall) (st : Store) :
  (forall h h', Call.past_key_values c = Some h -> h' <> h ->
     (SeedOssModel_call config embed_tokens self_attn input_layernorm
     post_attention_layernorm mlp block_wise_ffn tensor_add norm c st).2 !! h' = st !! h')
  /\ (Call.past_key_values c = None ->
      forall h' cache, st !! h' = Some cache ->
        (SeedOssModel_call config embed_tokens self_attn input_layernorm
     post_attention_layernorm mlp block_wise_ffn tensor_add norm c st).2 !! h' = Some cache).
Proof.
  unfold SeedOssModel_call.
  destruct (prepare_call c) as [p|e0]; [|split; intros; cbn; done].
  split.
  - intros h h' -> Hne. cbv beta iota zeta.
    match goal with
    | |- context [run ?ls ?c ?p ?h ?hs ?ahs ?aat ?st] =>
        destruct (run ls c p h hs ahs aat st) as [r st1] eqn:Hr
    end.
    apply (run_layers_frame _ _ _ _ h') in Hr; [|done].
    destruct r as [[[? ?] ?]|?]; cbn; done.
  - intros -> h' cache Hc. cbv beta iota zeta.
    match goal with
    | |- context [run ?ls ?c ?p ?h ?hs ?ahs ?aat ?st] =>
        destruct (run ls c p h hs ahs aat st) as [r st1] eqn:Hr
    end.
    assert (h' <> fresh (dom st)) as Hne.
    { intros ->. pose proof (is_fresh (dom st)) as Hf.
      apply not_elem_of_dom in Hf. congruence. }
    apply (run_layers_frame _ _ _ _ h') in Hr; [|done].
    rewrite lookup_insert_ne in Hr by done.
    destruct r as [[[? ?] ?]|?]; cbn; congruence.
Qed.

(** X13: on a call that returns, layer [i] is handed view [i] of the
    cache as it was at entry (its own earlier view, never another
    layer's), the cache holds afterwards at [i] the view layer [i]
    returned, views beyond the last layer stay as they were, and the
    normalised output of the last layer is the call's last hidden state. *)
Theorem each_layer_owns_its_view (c : ForwardCall) (st st' : Store)
    (base : BaseModelOutput.t (Array2 Hidden) AttnWeight)
    (cache : TransformerCache View) :
  model_call c st = (Ok base, st') ->
  cache_at_entry (length (layers config)) st c = Some cache ->
  exists p h cache',
    prepare_call c = Ok p
    /\ BaseModelOutput.past_key_values base = Some h
    /\ st' !! h = Some cache'
    /\ length (views cache') = length (views cache)
    /\ BaseModelOutput.last_hidden_state base =
         norm (final_hidden
                 (layer_outputs (layer_of c p) (layers config) (views cache)
                    (inputs_embeds p))
                 (inputs_embeds p))
    /\ (forall i o,
          layer_outputs (layer_of c p) (layers config) (views cache)
            (inputs_embeds p) !! i = Some o ->
          views cache' !! i = Some (DecoderLayerOutput.cache_view o))
    /\ (forall i, (length (layers config) <= i)%nat ->
          views cache' !! i = views cache !! i).
Proof.
  intros Hm Hc.
  destruct (model_call_pure c st st' base cache Hm Hc)
    as (p & h & cache' & Hp & Hh & _ & Hl & _ & _ & Hc' & Hlen & Hv & Hf).
  exists p, h, cache'. repeat split; done.
Qed.

(** X14: the cache a call without a prior cache returns is the one the
    next call works on. When both calls return, they return the same
    handle, which named nothing before the first call; the cache has a view
    per layer after each call; the layers of the next call are handed the
    views the first call left, layer [i] view [i]; and the cache then holds
    at [i] the view layer [i] of the next call returned. *)
Theorem next_call_reads_returned_views (c1 c2 : ForwardCall) (st st1 st2 : Store)
    (base1 base2 : BaseModelOutput.t (Array2 Hidden) AttnWeight) :
  Call.past_key_values c1 = None ->
  model_call c1 st = (Ok base1, st1) ->
  Call.past_key_values c2 = BaseModelOutput.past_key_values base1 ->
  model_call c2 st1 = (Ok base2, st2) ->
  exists h cache1 cache2 p2,
    BaseModelOutput.past_key_values base1 = Some h
    /\ BaseModelOutput.past_key_values base2 = Some h
    /\ st !! h = None
    /\ st1 !! h = Some cache1
    /\ st2 !! h = Some cache2
    /\ length (views cache1) = length (layers config)
    /\ length (views cache2) = length (layers config)
    /\ prepare_call c2 = Ok p2
    /\ BaseModelOutput.last_hidden_state base2 =
         norm (final_hidden
                 (layer_outputs (layer_of c2 p2) (layers config) (views cache1)
                    (inputs_embeds p2))
                 (inputs_embeds p2))
    /\ (forall i o,
          layer_outputs (layer_of c2 p2) (layers config) (views cache1)
            (inputs_embeds p2) !! i = Some o ->
          views cache2 !! i = Some (DecoderLayerOutput.cache_view o)).
Proof.
  intros Hnone H1 Hpkv H2.
  destruct (model_call_creates_cache c1 st st1 base1 Hnone H1)
    as (h & cache1 & Hh & Hfresh & Hc1 & Hlen1).
  rewrite Hh in Hpkv.
  assert (cache_at_entry (length (layers config)) st1 c2 = Some cache1) as Hentry
    by (unfold cache_at_entry; by rewrite Hpkv).
  destruct (model_call_pure c2 st1 st2 base2 cache1 H2 Hentry)
    as (p2 & h2 & cache2 & Hp2 & Hh2 & Hsame & Hlast & _ & _ & Hc2 & Hlen2 & Hv & _).
  rewrite Hpkv in Hsame. subst h2.
  exists h, cache1, cache2, p2. repeat split; try done. congruence.
Qed.

(** ** The heads *)

(** X15: a call the argument or length check rejects has no effect: the
    store is as it was, and no cache has been created. *)
Theorem rejected_call_leaves_store (c : ForwardCall) (st : Store) (msg : string) :
  (SeedOssModel_call config embed_tokens self_attn input_layernorm
     post_attention_layernorm mlp block_wise_ffn tensor_add norm c st).1 = Raise (ValueError msg)
  \/ (SeedOssModel_call config embed_tokens self_attn input_layernorm
     post_attention_layernorm mlp block_wise_ffn tensor_add norm c st).1 = Raise (AssertionError msg) ->
  (SeedOssModel_call config embed_tokens self_attn input_layernorm
     post_attention_layernorm mlp block_wise_ffn tensor_add norm c st).2 = st.
Proof.
  intros H.
  assert (exists e, prepare_call c = Raise e) as [e He].
  { destruct H as [H|H]; apply model_call_raise_inv in H as [H|[_ [H|[m H]]]];
      eauto; done. }
  unfold SeedOssModel_call. by rewrite He.
Qed.

(** After a base-model call that returned, the call passes an input. *)
Lemma call_batch_size_of_ok (c : ForwardCall) (st st' : Store)
    (base : BaseModelOutput.t (Array2 Hidden) AttnWeight) :
  model_call c st = (Ok base, st') -> exists b, call_batch_size c = Some b.
Proof.
  intros H. apply model_call_ok_inv in H as (p & h & Hp & _).
  apply prepare_ok_inv in Hp as (Hb & _). apply both_or_neither_false in Hb.
  unfold call_batch_size.
  destruct (Call.input_ids c), (Call.inputs_embeds c); eauto.
  destruct Hb as [[? _]|[_ ?]]; done.
Qed.

(** X16: with no pad token configured, the classification head, after
    the base model has run, raises its batch-size error for every batch
    size other than 1 (an empty batch included) and leaves the store as
    the base model left it; on a single sequence that is not empty it
    returns the logits pooled at index -1, the last position. *)
Theorem no_pad_token_needs_single_sequence (c : ForwardCall) (st st' : Store)
    (base : BaseModelOutput.t (Array2 Hidden) AttnWeight) (b L : nat) :
  SeedOssConfig.pad_token_id config = None ->
  model_call c st = (Ok base, st') ->
  call_batch_size c = Some b ->
  call_sequence_length c = Some L ->
  (b <> 1%nat ->
   classifier_call c st = (Raise (ValueError no_pad_batch_msg), st'))
  /\ (b = 1%nat -> (0 < L)%nat ->
      exists out,
        classifier_call c st = (Ok out, st')
        /\ SequenceClassifierOutput.logits out =
             take_per_row (map2 score (BaseModelOutput.last_hidden_state base))
                          1 (Scalar (-1))
        /\ ((0 < shape1 (BaseModelOutput.last_hidden_state base))%nat ->
            SequenceClassifierOutput.logits out =
              [score (get2 (BaseModelOutput.last_hidden_state base) 0
                        (shape1 (BaseModelOutput.last_hidden_state base) - 1))])).
Proof.
  intros Hpad Hm Hb _. unfold SeedOssForSequenceClassification_call.
  rewrite Hm. unfold call_batch_size in Hb. unfold sequence_lengths.
  rewrite Hpad.
  destruct (Call.input_ids c) as [ids|], (Call.inputs_embeds c) as [e|];
    try done; injection Hb as <-; cbn [bind].
  all: split; [intros Hne|intros Hne _].
  all: try (rewrite Hne; cbn [Nat.eqb negb andb bind]; eexists;
            split; [reflexivity|]; split; [reflexivity|];
            intros Hpos; cbn; by rewrite normalize_index_last).
  all: destruct (_ =? 1)%nat eqn:E; [apply Nat.eqb_eq in E; done|]; cbn; done.
Qed.

(** X17: for a row whose first pad token is at position [k], the pooled
    index is [k - 1] when [k >= 1], and the last position of the row
    when the row starts with the pad token. *)
Theorem pooled_index_at_first_pad (c : ForwardCall) (pad : Z) (ids : Array2 Z)
    (ix : index) (i k : nat) :
  SeedOssConfig.pad_token_id config = Some pad ->
  Call.input_ids c = Some ids ->
  sequence_lengths config c = Ok ix ->
  (i < shape0 ids)%nat ->
  row ids i !! k = Some pad ->
  (forall j t, (j < k)%nat -> row ids i !! j = Some t -> t <> pad) ->
  index_at ix i =
    if decide (k = 0%nat) then Z.of_nat (shape1 ids) - 1 else Z.of_nat k - 1.
Proof.
  intros Hpad Hi Hs Hlt Hk Hbefore.
  destruct (sequence_lengths_with_pad c pad ids ix Hpad Hi Hs) as [Hne Hix].
  rewrite Hix by done.
  assert (pad ∈ row ids i) as Hin by (by eapply list_elem_of_lookup_2).
  assert (is_pad pad (row ids i) <> []) as Hnil.
  { intros E. apply (f_equal length) in E. unfold is_pad in E.
    rewrite length_map, length_row in E. done. }
  pose proof (argmax_first_max _ Hnil) as Hfm.
  apply first_max_is_first_pad in Hfm as [Hk' Hbefore']; [|done].
  assert (argmax (is_pad pad (row ids i)) = k) as ->.
  { destruct (Nat.lt_trichotomy (argmax (is_pad pad (row ids i))) k) as [H|[H|H]].
    - exfalso. by eapply Hbefore.
    - done.
    - exfalso. by eapply Hbefore'. }
  apply lookup_lt_Some in Hk. rewrite length_row in Hk.
  destruct (decide (k = 0%nat)) as [->|Hk0].
  - cbn [Z.of_nat]. replace (0 - 1) with (-1) by lia.
    rewrite <- (Z.mod_small (Z.of_nat (shape1 ids) - 1) (Z.of_nat (shape1 ids))) by lia.
    replace (-1) with (Z.of_nat (shape1 ids) - 1 - 1 * Z.of_nat (shape1 ids)) at 1 by lia.
    rewrite Zminus_mod, Z_mod_mult, Z.sub_0_r, Zmod_mod. done.
  - apply Z.mod_small. lia.
Qed.

(** X18: when the classification head returns, it returns one pooled
    logit per sequence of the batch and the traces of the base model; and
    whether it returns or raises, it leaves the store as the base model
    left it. *)
Theorem classifier_shapes_and_store (c : ForwardCall) (st : Store) :
  (classifier_call c st).2 = (model_call c st).2
  /\ forall out, (classifier_call c st).1 = Ok out ->
       exists base b,
         (model_call c st).1 = Ok base
         /\ call_batch_size c = Some b
         /\ length (SequenceClassifierOutput.logits out) = b
         /\ SequenceClassifierOutput.hidden_states out = BaseModelOutput.hidden_states base
         /\ SequenceClassifierOutput.attentions out = BaseModelOutput.attentions base.
Proof.
  split.
  - unfold SeedOssForSequenceClassification_call.
    by destruct (model_call c st) as [[base|e] st1].
  - intros out Hout.
    destruct (classifier_call c st) as [r st'] eqn:Hc. cbn in Hout. subst r.
    apply classifier_ok_inv in Hc as (base & b & ix & Hm & Hb & _ & Hl & Hh & Ha & _).
    exists base, b. rewrite Hm. repeat split; try done.
    + unfold call_batch_size. destruct (Call.input_ids c); [by subst|].
      destruct Hb as (e & -> & ->). done.
    + rewrite Hl. unfold take_per_row. by rewrite length_map, length_seq.
Qed.

(** X19: on a call whose sequences are not empty, the classification
    head raises either what the base model raised or its batch-size error
    (no pad token, batch size other than 1); it raises nothing else. *)
Theorem classifier_errors (c : ForwardCall) (st : Store) (e : exn) :
  call_sequence_length c <> Some 0%nat ->
  (classifier_call c st).1 = Raise e ->
  (model_call c st).1 = Raise e
  \/ (SeedOssConfig.pad_token_id config = None
      /\ call_batch_size c <> Some 1%nat
      /\ e = ValueError no_pad_batch_msg).
Proof.
  intros HL.
  unfold SeedOssForSequenceClassification_call.
  destruct (model_call c st) as [[base|e0] st1] eqn:Hm;
    [|cbn; intros [= <-]; by left].
  destruct (call_batch_size_of_ok c st st1 base Hm) as [b Hb].
  apply model_call_ok_inv in Hm as (p & h & Hp & _).
  apply prepare_ok_inv in Hp as (Hbn & _).
  unfold call_sequence_length in HL. rewrite Hbn in HL.
  apply both_or_neither_false in Hbn.
  unfold call_batch_size in *. unfold sequence_lengths, argmax_last.
  cbn [fst].
  destruct (Call.input_ids c) as [ids|] eqn:Hi.
  - injection Hb as <-. cbn [bind].
    destruct Hbn as [[_ He]|[? _]]; [|done]. rewrite He in HL.
    destruct (SeedOssConfig.pad_token_id config) as [pad|] eqn:Hpad; cbn [bind].
    + cbn [shape1 map2].
      destruct (shape1 ids =? 0)%nat eqn:E; cbn [bind]; [|done].
      apply Nat.eqb_eq in E. congruence.
    + destruct (shape0 ids =? 1)%nat eqn:E; cbn; [done|].
      apply Nat.eqb_neq in E. intros [= <-]. right.
      repeat split; try done. congruence.
  - destruct (Call.inputs_embeds c) as [emb|]; [|done].
    injection Hb as <-. cbn [bind].
    destruct (SeedOssConfig.pad_token_id config) as [pad|] eqn:Hpad; cbn [bind];
      [done|].
    destruct (shape0 emb =? 1)%nat eqn:E; cbn; [done|].
    apply Nat.eqb_neq in E. intros [= <-]. right.
    repeat split; try done. congruence.
Qed.

(** X20: the causal-LM head adds no failure and no effect of its own: it
    raises exactly what the base model raises and leaves the store as the
    base model left it; when it returns, it hands on the base model's
    hidden states, traces and cache, with logits exactly when
    [apply_lm_head] is true. *)
Theorem causal_lm_forwards_base (c : ForwardCall) (apply_lm_head : bool)
    (st : Store) :
  (SeedOssForCausalLM_call config embed_tokens self_attn input_layernorm
     post_attention_layernorm mlp block_wise_ffn tensor_add norm lm_head c
     apply_lm_head st).2 = (SeedOssModel_call config embed_tokens self_attn input_layernorm
     post_attention_layernorm mlp block_wise_ffn tensor_add norm c st).2
  /\ (forall e, (SeedOssForCausalLM_call config embed_tokens self_attn input_layernorm
     post_attention_layernorm mlp block_wise_ffn tensor_add norm lm_head c
     apply_lm_head st).1 = Raise e <->
                (SeedOssModel_call config embed_tokens self_attn input_layernorm
     post_attention_layernorm mlp block_wise_ffn tensor_add norm c st).1 = Raise e)
  /\ (forall out, (SeedOssForCausalLM_call config embed_tokens self_attn input_layernorm
     post_attention_layernorm mlp block_wise_ffn tensor_add norm lm_head c
     apply_lm_head st).1 = Ok out ->
        exists base,
          (SeedOssModel_call config embed_tokens self_attn input_layernorm
     post_attention_layernorm mlp block_wise_ffn tensor_add norm c st).1 = Ok base
          /\ CausalLMOutput.last_hidden_state out = BaseModelOutput.last_hidden_state base
          /\ CausalLMOutput.hidden_states out = BaseModelOutput.hidden_states base
          /\ CausalLMOutput.attentions out = BaseModelOutput.attentions base
          /\ CausalLMOutput.past_key_values out = BaseModelOutput.past_key_values base
          /\ CausalLMOutput.logits out =
               if apply_lm_head
               then Some (lm_head (BaseModelOutput.last_hidden_state base))
               else None).
Proof.
  unfold SeedOssForCausalLM_call.
  destruct (model_call c st) as [[base|e0] st1]; cbn.
  - split; [done|]. split; [done|]. intros out [= <-]. exists base. done.
  - split; [done|]. split; [|done]. intros e. split; intros [= <-]; done.
Qed.

End ModelFacts.

(** * The calls on concrete inputs *)

Section Runs.

(** C3: the claim is that the cache field of the classification head's
    output is the cache the base model's layers updated, also when the
    call passed none and the base model created it. The code departs from
    it on the token ids [[5, 7, 1, 1]] passed with no prior cache: the
    base model returns the handle of a fresh cache whose two views the
    layers have filled, the head leaves the same store, and the head's
    record carries no cache. *)
Theorem classifier_returns_no_created_cache :
  BaseModelOutput.past_key_values <$>
    returned (Toy.SeedOssModel_call Toy.config (Toy.with_ids [[5; 7; 1; 1]] None) ∅).1
  = Some (Some 0%nat)
  /\ views <$>
       (Toy.SeedOssModel_call Toy.config (Toy.with_ids [[5; 7; 1; 1]] None) ∅).2 !! 0%nat
     = Some [Some 4%nat; Some 4%nat]
  /\ (Toy.SeedOssForSequenceClassification_call Toy.config
        (Toy.with_ids [[5; 7; 1; 1]] None) ∅).2
     = (Toy.SeedOssModel_call Toy.config (Toy.with_ids [[5; 7; 1; 1]] None) ∅).2
  /\ SequenceClassifierOutput.past_key_values <$>
       returned (Toy.SeedOssForSequenceClassification_call Toy.config
                   (Toy.with_ids [[5; 7; 1; 1]] None) ∅).1
     = Some None.
Proof. repeat split; vm_compute; reflexivity. Qed.

(** On the same call the causal-LM head returns the created cache. *)
Lemma causal_lm_returns_created_cache :
  CausalLMOutput.past_key_values <$>
    returned (Toy.SeedOssForCausalLM_call Toy.config
                (Toy.with_ids [[5; 7; 1; 1]] None) true ∅).1
  = Some (Some 0%nat).
Proof. vm_compute; reflexivity. Qed.

(** C7, as stated, fails: a single-token call that passes a cache none of
    whose views is filled supplies no non-empty prior cache, and its
    inferred mode is "decode". *)
Lemma decode_with_empty_cache :
  Call.mode (Toy.with_ids [[7]] (Some 0%nat)) = None
  /\ call_sequence_length (Toy.with_ids [[7]] (Some 0%nat)) = Some 1%nat
  /\ nonempty_prior_cache
       ({[ 0%nat := init_empty 2 ]} : gmap handle (TransformerCache nat))
       (Toy.with_ids [[7]] (Some 0%nat)) = false
  /\ mode <$> returned (Toy.prepare Toy.config (Toy.with_ids [[7]] (Some 0%nat)))
     = Some MODE_DECODE.
Proof. repeat split; vm_compute; reflexivity. Qed.

Lemma mode_inference_witness :
  mode <$> returned (Toy.prepare Toy.config (Toy.with_ids [[7]] (Some 0%nat)))
  = Some MODE_DECODE.
Proof.
  assert (sequence_length <$>
            returned (Toy.prepare Toy.config (Toy.with_ids [[7]] (Some 0%nat)))
          = Some 1%nat) as HL by (vm_compute; reflexivity).
  destruct (Toy.prepare Toy.config (Toy.with_ids [[7]] (Some 0%nat)))
    as [p|e] eqn:E; [|discriminate HL].
  injection HL as HL. cbn [returned fmap option_fmap option_map]. f_equal.
  destruct (mode_inference Toy.config (fun t => t)
              (Toy.with_ids [[7]] (Some 0%nat)) p E eq_refl) as (_ & H & _).
  apply H. split; [exact HL | discriminate].
Defined.

Lemma max_position_check_witness :
  (Toy.SeedOssModel_call Toy.config (Toy.with_ids [[5; 7; 1; 1; 1]] None) ∅).1
  = Raise (AssertionError "Maximum Position Embedding Reached ! (Expected <= 4 got 5)")
  /\ is_ok (Toy.SeedOssModel_call Toy.config (Toy.with_ids [[5; 7; 1; 1]] None) ∅).1
     = true.
Proof.
  split.
  - refine (proj1 (max_position_check Toy.config (fun t => t) Toy.self_attn
                     (fun _ h => h) (fun _ h => h) (fun _ h => h)
                     (fun f h _ => f h) Toy.tensor_add (fun h => h)
                     (Toy.with_ids [[5; 7; 1; 1; 1]] None) ∅ 5 eq_refl) _).
    reflexivity.
  - vm_compute; reflexivity.
Defined.

Lemma derived_position_ids_are_zero_witness :
  (fun p => (row (position_ids p) 0, row (position_ids p) 1)) <$>
    returned (Toy.prepare Toy.config
                (Toy.with_ids [[5; 7; 1; 1]; [5; 6; 7; 8]] None))
  = Some ([0; 0; 0; 0], [0; 0; 0; 0]).
Proof.
  assert (sequence_length <$>
            returned (Toy.prepare Toy.config
                        (Toy.with_ids [[5; 7; 1; 1]; [5; 6; 7; 8]] None))
          = Some 4%nat) as HL by (vm_compute; reflexivity).
  destruct (Toy.prepare Toy.config (Toy.with_ids [[5; 7; 1; 1]; [5; 6; 7; 8]] None))
    as [p|e] eqn:E; [|discriminate HL].
  injection HL as HL. cbn [returned fmap option_fmap option_map].
  destruct (derived_position_ids_are_zero Toy.config (fun t => t)
              (Toy.with_ids [[5; 7; 1; 1]; [5; 6; 7; 8]] None) p E
              eq_refl eq_refl) as (_ & _ & _ & H).
  rewrite !H, HL. reflexivity.
Defined.


Lemma pooled_index_with_embeds_witness :
  sequence_lengths Toy.config (Toy.with_embeds [[5; 7; 1; 1]]) = Ok (Scalar (-1))
  /\ SequenceClassifierOutput.logits <$>
       returned (Toy.SeedOssForSequenceClassification_call Toy.config
                   (Toy.with_embeds [[5; 7; 1; 1]]) ∅).1
     = Some [16].
Proof.
  assert (is_ok (Toy.SeedOssForSequenceClassification_call Toy.config
                   (Toy.with_embeds [[5; 7; 1; 1]]) ∅).1 = true)
    as Hok by (vm_compute; reflexivity).
  split; [|vm_compute; reflexivity].
  destruct (Toy.SeedOssForSequenceClassification_call Toy.config
              (Toy.with_embeds [[5; 7; 1; 1]]) ∅)
    as [[out|e] st'] eqn:E; [|discriminate Hok].
  exact (proj1 (pooled_index_with_embeds Toy.config (fun t => t) Toy.self_attn
                  (fun _ h => h) (fun _ h => h) (fun _ h => h)
                  (fun f h _ => f h) Toy.tensor_add (fun h => h) (fun h : Z => h)
                  (Toy.with_embeds [[5; 7; 1; 1]]) ∅ st' out
                  (of_rows 0 [[5; 7; 1; 1]]) eq_refl eq_refl E)).
Defined.


Lemma traces_follow_flags_witness :
  (fun b => (length <$> BaseModelOutput.hidden_states b,
             length <$> BaseModelOutput.attentions b)) <$>
    returned (Toy.SeedOssModel_call Toy.config
                (toy_call [[5; 7; 1; 1]] None None None (Some true)) ∅).1
  = Some (Some 3%nat, None).
Proof.
  assert (is_ok (Toy.SeedOssModel_call Toy.config
                   (toy_call [[5; 7; 1; 1]] None None None (Some true)) ∅).1 = true)
    as Hok by (vm_compute; reflexivity).
  destruct (Toy.SeedOssModel_call Toy.config
              (toy_call [[5; 7; 1; 1]] None None None (Some true)) ∅)
    as [[base|e] st'] eqn:E; [|discriminate Hok].
  destruct (traces_follow_flags Toy.config (fun t => t) Toy.self_attn
              (fun _ h => h) (fun _ h => h) (fun _ h => h)
              (fun f h _ => f h) Toy.tensor_add (fun h => h)
              (toy_call [[5; 7; 1; 1]] None None None (Some true)) ∅ st' base E)
    as [(t & Ht & Hl & _) Ha].
  cbn [fst returned fmap option_fmap option_map].
  cbn in Ha. rewrite Ht, Ha. cbn. rewrite Hl. reflexivity.
Defined.

Lemma passed_cache_is_read_per_layer_witness :
  Toy.SeedOssModel_call Toy.config (Toy.with_ids [[5; 7]] (Some 0%nat))
    {[ 0%nat := mkCache [] ]}
  = (Raise (IndexError "list index out of range"), {[ 0%nat := mkCache [] ]}).
Proof.
  assert (is_ok (Toy.prepare Toy.config (Toy.with_ids [[5; 7]] (Some 0%nat))) = true)
    as Hok by (vm_compute; reflexivity).
  destruct (Toy.prepare Toy.config (Toy.with_ids [[5; 7]] (Some 0%nat)))
    as [p|e] eqn:E; [|discriminate Hok].
  refine (proj2 (passed_cache_is_read_per_layer Toy.config (fun t => t)
                   Toy.self_attn (fun _ h => h) (fun _ h => h) (fun _ h => h)
                   (fun f h _ => f h) Toy.tensor_add (fun h => h)
                   (Toy.with_ids [[5; 7]] (Some 0%nat))
                   {[ 0%nat := mkCache [] ]} p 0%nat
                   (mkCache []) E eq_refl eq_refl) eq_refl _).
  vm_compute. discriminate.
Defined.

Lemma each_layer_owns_its_view_witness :
  exists cache',
    (Toy.SeedOssModel_call Toy.config (Toy.with_ids [[5; 7]] (Some 0%nat))
       {[ 0%nat := mkCache [Some 3%nat; Some 5%nat; Some 9%nat] ]}).2 !! 0%nat
    = Some cache'
    /\ length (views cache') = 3%nat
    /\ views cache' !! 2%nat = Some (Some 9%nat).
Proof.
  assert (BaseModelOutput.past_key_values <$>
            returned (Toy.SeedOssModel_call Toy.config
                        (Toy.with_ids [[5; 7]] (Some 0%nat))
                        {[ 0%nat := mkCache [Some 3%nat; Some 5%nat; Some 9%nat] ]}).1
          = Some (Some 0%nat)) as Hpk by (vm_compute; reflexivity).
  destruct (Toy.SeedOssModel_call Toy.config (Toy.with_ids [[5; 7]] (Some 0%nat))
              {[ 0%nat := mkCache [Some 3%nat; Some 5%nat; Some 9%nat] ]})
    as [[base|e] st'] eqn:E; [|discriminate Hpk].
  cbn in Hpk. injection Hpk as Hpk.
  destruct (each_layer_owns_its_view Toy.config (fun t => t) Toy.self_attn
              (fun _ h => h) (fun _ h => h) (fun _ h => h)
              (fun f h _ => f h) Toy.tensor_add (fun h => h)
              (Toy.with_ids [[5; 7]] (Some 0%nat))
              {[ 0%nat := mkCache [Some 3%nat; Some 5%nat; Some 9%nat] ]}
              st' base (mkCache [Some 3%nat; Some 5%nat; Some 9%nat]) E eq_refl)
    as (p & h & cache' & _ & Hh & Hc' & Hlen & _ & _ & Hf).
  assert (h = 0%nat) as -> by congruence.
  exists cache'. split; [exact Hc'|]. split; [exact Hlen|].
  rewrite Hf by (vm_compute; lia). reflexivity.
Defined.

Lemma next_call_reads_returned_views_witness :
  exists cache1 cache2,
    (Toy.SeedOssModel_call Toy.config (Toy.with_ids [[5; 7; 1; 1]] None) ∅).2 !! 0%nat
    = Some cache1
    /\ (Toy.SeedOssModel_call Toy.config (Toy.with_ids [[9]] (Some 0%nat))
          (Toy.SeedOssModel_call Toy.config (Toy.with_ids [[5; 7; 1; 1]] None) ∅).2).2
       !! 0%nat = Some cache2
    /\ length (views cache1) = 2%nat
    /\ length (views cache2) = 2%nat.
Proof.
  assert (BaseModelOutput.past_key_values <$>
            returned (Toy.SeedOssModel_call Toy.config
                        (Toy.with_ids [[5; 7; 1; 1]] None) ∅).1
          = Some (Some 0%nat)) as Hpk by (vm_compute; reflexivity).
  assert (is_ok (Toy.SeedOssModel_call Toy.config (Toy.with_ids [[9]] (Some 0%nat))
                   (Toy.SeedOssModel_call Toy.config
                      (Toy.with_ids [[5; 7; 1; 1]] None) ∅).2).1 = true)
    as Hok by (vm_compute; reflexivity).
  destruct (Toy.SeedOssModel_call Toy.config (Toy.with_ids [[5; 7; 1; 1]] None) ∅)
    as [[base1|e] st1] eqn:E1; [|discriminate Hpk].
  cbn in Hpk. injection Hpk as Hpk. cbn [snd] in *.
  destruct (Toy.SeedOssModel_call Toy.config (Toy.with_ids [[9]] (Some 0%nat)) st1)
    as [[base2|e] st2] eqn:E2; [|discriminate Hok].
  destruct (next_call_reads_returned_views Toy.config (fun t => t) Toy.self_attn
              (fun _ h => h) (fun _ h => h) (fun _ h => h)
              (fun f h _ => f h) Toy.tensor_add (fun h => h)
              (Toy.with_ids [[5; 7; 1; 1]] None) (Toy.with_ids [[9]] (Some 0%nat))
              ∅ st1 st2 base1 base2 eq_refl E1 (eq_sym Hpk) E2)
    as (h & cache1 & cache2 & p2 & Hh1 & _ & _ & Hc1 & Hc2 & Hl1 & Hl2 & _).
  assert (h = 0%nat) as -> by congruence.
  exists cache1, cache2. repeat split; done.
Defined.

Lemma rejected_call_leaves_store_witness :
  (Toy.SeedOssModel_call Toy.config (Toy.with_both [[5; 7]] [[1; 2]])
     {[ 0%nat := mkCache [Some 3%nat] ]}).2
  = {[ 0%nat := mkCache [Some 3%nat] ]}.
Proof.
  apply (rejected_call_leaves_store Toy.config (fun t => t) Toy.self_attn
           (fun _ h => h) (fun _ h => h) (fun _ h => h)
           (fun f h _ => f h) Toy.tensor_add (fun h => h)
           (Toy.with_both [[5; 7]] [[1; 2]]) _ both_or_neither_msg).
  left. vm_compute. reflexivity.
Defined.

Lemma no_pad_token_needs_single_sequence_witness :
  (Toy.SeedOssForSequenceClassification_call Toy.config_no_pad
     (Toy.with_ids [[5; 7]; [1; 2]] None) ∅).1
  = Raise (ValueError no_pad_batch_msg)
  /\ is_ok (Toy.SeedOssForSequenceClassification_call Toy.config_no_pad
              (Toy.with_ids [[5; 7]] None) ∅).1 = true.
Proof.
  split.
  - assert (is_ok (Toy.SeedOssModel_call Toy.config_no_pad
                     (Toy.with_ids [[5; 7]; [1; 2]] None) ∅).1 = true)
      as Hok by (vm_compute; reflexivity).
    destruct (Toy.SeedOssModel_call Toy.config_no_pad
                (Toy.with_ids [[5; 7]; [1; 2]] None) ∅)
      as [[base|e] st'] eqn:E; [|discriminate Hok].
    destruct (no_pad_token_needs_single_sequence Toy.config_no_pad (fun t => t)
                Toy.self_attn (fun _ h => h) (fun _ h => h) (fun _ h => h)
                (fun f h _ => f h) Toy.tensor_add (fun h => h) (fun h : Z => h)
                (Toy.with_ids [[5; 7]; [1; 2]] None) ∅ st' base 2%nat 2%nat
                eq_refl E eq_refl eq_refl) as [H _].
    unfold Toy.SeedOssForSequenceClassification_call. rewrite H by lia. reflexivity.
  - assert (is_ok (Toy.SeedOssModel_call Toy.config_no_pad
                     (Toy.with_ids [[5; 7]] None) ∅).1 = true)
      as Hok by (vm_compute; reflexivity).
    destruct (Toy.SeedOssModel_call Toy.config_no_pad
                (Toy.with_ids [[5; 7]] None) ∅)
      as [[base|e] st'] eqn:E; [|discriminate Hok].
    destruct (no_pad_token_needs_single_sequence Toy.config_no_pad (fun t => t)
                Toy.self_attn (fun _ h => h) (fun _ h => h) (fun _ h => h)
                (fun f h _ => f h) Toy.tensor_add (fun h => h) (fun h : Z => h)
                (Toy.with_ids [[5; 7]] None) ∅ st' base 1%nat 2%nat
                eq_refl E eq_refl eq_refl) as [_ H].
    destruct H as (out & H & _); [reflexivity|lia|].
    unfold Toy.SeedOssForSequenceClassification_call. rewrite H. reflexivity.
Defined.

Lemma pooled_index_at_first_pad_witness :
  exists ix,
    sequence_lengths Toy.config (Toy.with_ids [[1; 5; 1; 7]; [5; 7; 1; 1]] None)
    = Ok ix
    /\ index_at ix 0 = 3 /\ index_at ix 1 = 1.
Proof.
  destruct (sequence_lengths Toy.config
              (Toy.with_ids [[1; 5; 1; 7]; [5; 7; 1; 1]] None))
    as [ix|e] eqn:E; [|vm_compute in E; discriminate].
  exists ix. split; [reflexivity|]. split.
  - refine (pooled_index_at_first_pad Toy.config
              (Toy.with_ids [[1; 5; 1; 7]; [5; 7; 1; 1]] None) 1
              (of_rows 0 [[1; 5; 1; 7]; [5; 7; 1; 1]]) ix 0 0
              eq_refl eq_refl E _ eq_refl _); [cbn; lia|].
    intros j t Hj. lia.
  - refine (pooled_index_at_first_pad Toy.config
              (Toy.with_ids [[1; 5; 1; 7]; [5; 7; 1; 1]] None) 1
              (of_rows 0 [[1; 5; 1; 7]; [5; 7; 1; 1]]) ix 1 2
              eq_refl eq_refl E _ eq_refl _); [cbn; lia|].
    intros [|[|j]] t Hj Ht; cbn in Ht; [| |lia]; injection Ht as <-; discriminate.
Defined.

Lemma classifier_errors_witness :
  (Toy.SeedOssModel_call Toy.config_no_pad (Toy.with_ids [[5; 7]; [1; 2]] None) ∅).1
  = Raise (ValueError no_pad_batch_msg)
  \/ (SeedOssConfig.pad_token_id Toy.config_no_pad = None
      /\ call_batch_size (Toy.with_ids [[5; 7]; [1; 2]] None) <> Some 1%nat
      /\ ValueError no_pad_batch_msg = ValueError no_pad_batch_msg).
Proof.
  apply (classifier_errors Toy.config_no_pad (fun t => t) Toy.self_attn
           (fun _ h => h) (fun _ h => h) (fun _ h => h)
           (fun f h _ => f h) Toy.tensor_add (fun h => h) (fun h : Z => h)
           (Toy.with_ids [[5; 7]; [1; 2]] None) ∅).
  - vm_compute. discriminate.
  - vm_compute. reflexivity.
Defined.

End Runs.
